(** * Bundle path resolution and target indexing (codalab/worker/download_util.py)

    A shallow embedding of [download_util.py]: the path resolver
    ([_get_target_path], [_get_normalized_target_path], [get_target_path]),
    the local indexer ([_compute_target_info]), the archive-backed indexer
    ([_compute_target_info_beam]) and the entry point [get_target_info],
    together with the parts of [posixpath], [str] and [zipfile] they call,
    a file tree and a blob store to run them on, and the streaming archive
    reader that streamingzipfile_test.py exercises. *)

From Stdlib Require Import String Ascii List ZArith Bool Lia.
Import ListNotations.
Open Scope string_scope.

(** ** Python [str] methods used by the source *)
Module PyStr.

Definition startswith (s pre : string) : bool := String.prefix pre s.

Fixpoint endswith_char (s : string) (c : ascii) : bool :=
  match s with
  | EmptyString => false
  | String a EmptyString => Ascii.eqb a c
  | String _ s' => endswith_char s' c
  end.

(** [s.split(sep)] for a one-character separator. *)
Fixpoint split (sep : ascii) (s : string) : list string :=
  match s with
  | EmptyString => [EmptyString]
  | String c s' =>
      if Ascii.eqb c sep then EmptyString :: split sep s'
      else match split sep s' with
           | [] => [String c EmptyString]
           | w :: ws => String c w :: ws
           end
  end.

Definition join (sep : string) (l : list string) : string := String.concat sep l.

Definition endswith (s suf : string) : bool :=
  let n := String.length s in
  let m := String.length suf in
  Nat.leb m n && (String.substring (n - m) m s =? suf).

(** [s.lstrip(c)] and [s.rstrip(c)] for a one-character set. *)
Fixpoint lstrip (c : ascii) (s : string) : string :=
  match s with
  | EmptyString => EmptyString
  | String a s' => if Ascii.eqb a c then lstrip c s' else s
  end.

Fixpoint rstrip (c : ascii) (s : string) : string :=
  match s with
  | EmptyString => EmptyString
  | String a s' =>
      match rstrip c s' with
      | EmptyString => if Ascii.eqb a c then EmptyString else String a EmptyString
      | r => String a r
      end
  end.

(** [s.replace(old, "")]: every non-overlapping occurrence of [old], scanned
    from the left, is dropped.  [skip] counts the characters of the
    occurrence being dropped that are still ahead. *)
Fixpoint remove_from (old s : string) (skip : nat) : string :=
  match s with
  | EmptyString => EmptyString
  | String c s' =>
      match skip with
      | S k => remove_from old s' k
      | O => if String.prefix old s
             then remove_from old s' (String.length old - 1)
             else String c (remove_from old s' 0)
      end
  end.

Definition remove_all (s old : string) : string :=
  match old with
  | EmptyString => s
  | _ => remove_from old s 0
  end.

End PyStr.

(** ** [posixpath] *)
Module PosixPath.

Definition sep : string := "/".
Definition sep_char : ascii := "/"%char.

(** [posixpath.normpath]. *)
Definition initial_slashes (path : string) : nat :=
  if PyStr.startswith path "/" then
    if PyStr.startswith path "//" && negb (PyStr.startswith path "///")
    then 2 else 1
  else 0.

Definition normpath_step (slashes : nat) (new_comps : list string) (comp : string)
  : list string :=
  if (comp =? "") || (comp =? ".") then new_comps
  else if negb (comp =? "..")
          || (Nat.eqb slashes 0 && Nat.eqb (List.length new_comps) 0)
          || (negb (Nat.eqb (List.length new_comps) 0)
              && (last new_comps "" =? ".."))
       then new_comps ++ [comp]
       else removelast new_comps.

Definition normpath (path : string) : string :=
  if path =? "" then "."
  else
    let slashes := initial_slashes path in
    let comps := fold_left (normpath_step slashes) (PyStr.split sep_char path) [] in
    let p := PyStr.join sep comps in
    let p := (match slashes with
              | 0 => ""
              | 1 => "/"
              | _ => "//"
              end ++ p)%string in
    if p =? "" then "." else p.

(** [posixpath.basename]: what follows the last separator. *)
Definition basename (p : string) : string :=
  last (PyStr.split sep_char p) "".

(** [posixpath.join] of two components. *)
Definition join (a b : string) : string :=
  if PyStr.startswith b "/" then b
  else if (a =? "") || PyStr.endswith_char a sep_char then (a ++ b)%string
  else (a ++ "/" ++ b)%string.

End PosixPath.

(** ** Exceptions and the error monad *)

Inductive exn : Type :=
| PathException (msg : string)
| Exception_ (path zip_subpath : string)   (* [Exception((path, zip_subpath))] *)
| KeyError (name : string)                 (* [ZipFile.getinfo] *)
| TypeError                                (* [str.startswith(None)] *)
| OSError (path : string)                  (* [os.lstat], [os.listdir], [os.readlink] *)
| BeamIOError (path : string)              (* [FileSystems.open], [FileSystems.match] *)
| ValueError (url : string).               (* a locator that does not unpack *)

Inductive result (A : Type) : Type :=
| Ok (a : A)
| Raise (e : exn).
Arguments Ok {A} a.
Arguments Raise {A} e.

Definition bind {A B} (m : result A) (k : A -> result B) : result B :=
  match m with
  | Ok a => k a
  | Raise e => Raise e
  end.

Notation "x <- m ;; k" := (bind m (fun x => k))
  (at level 61, m at next level, right associativity).

(** A list comprehension whose element expression can raise: elements are
    evaluated left to right and the first exception aborts the whole list. *)
Fixpoint mapM {A B} (f : A -> result B) (l : list A) : result (list B) :=
  match l with
  | [] => Ok []
  | x :: xs => y <- f x ;; ys <- mapM f xs ;; Ok (y :: ys)
  end.

(** ** Data model *)

Record BundleTarget : Type := mkBundleTarget {
  bundle_uuid : string;
  subpath : string
}.

Definition BundleTarget_eq (a b : BundleTarget) : bool :=
  (bundle_uuid a =? bundle_uuid b) && (subpath a =? subpath b).

Definition BundleTarget_str (t : BundleTarget) : string :=
  bundle_uuid t ++ ":" ++ subpath t.

(** What the operating system answers; the source only ever asks. *)
Record stat_result : Type := mkStat { st_size : Z; st_mode : Z }.

Record OS : Type := mkOS {
  realpath : string -> string;
  islink : string -> bool;
  isfile : string -> bool;
  isdir : string -> bool;
  lstat : string -> result stat_result;
  readlink : string -> result string;
  listdir : string -> result (list string)
}.

(** ** The path resolver *)

Definition azfs : string := "azfs://".

Definition _get_target_path (bundle_path path : string) : string :=
  if negb (path =? "")
  then bundle_path ++ PosixPath.sep ++ path
  else bundle_path.

Definition _get_normalized_target_path (os : OS) (bundle_path : string)
           (target : BundleTarget) : result string :=
  let real_bundle_path :=
    if PyStr.startswith bundle_path azfs then bundle_path
    else realpath os bundle_path in
  let normalized_target_path := _get_target_path real_bundle_path (subpath target) in
  let normalized_target_path :=
    if negb (PyStr.startswith normalized_target_path azfs)
    then PosixPath.normpath normalized_target_path
    else normalized_target_path in
  let error_path := _get_target_path (bundle_uuid target) (subpath target) in
  if negb (PyStr.startswith normalized_target_path real_bundle_path)
  then Raise (PathException (error_path ++ " is not inside the bundle."))
  else Ok normalized_target_path.

Definition get_target_path (os : OS) (bundle_path : string) (target : BundleTarget)
  : result string :=
  final_path <- _get_normalized_target_path os bundle_path target ;;
  let error_path := _get_target_path (bundle_uuid target) (subpath target) in
  if islink os final_path
  then Raise (PathException
                (error_path ++ " is a symlink and following symlinks is not allowed."))
  else Ok final_path.

Definition BUNDLE_NO_LONGER_RUNNING_MESSAGE : string := "Bundle no longer running".

(** ** Metadata nodes

    The dictionaries the indexers build.  A key that a branch does not set is
    [None]. *)

Inductive kind : Type := file | directory | link.

#[warnings="-register-all"]
Inductive node : Type := mkNode {
  node_name : string;
  node_type : option kind;
  node_size : Z;
  node_perm : Z;
  node_link : option string;
  node_contents : option (list node);
  node_fs : option string;
  node_e : option (list string);
  node_resolved_target : option BundleTarget
}.

Definition set_resolved_target (n : node) (t : BundleTarget) : node :=
  mkNode (node_name n) (node_type n) (node_size n) (node_perm n) (node_link n)
         (node_contents n) (node_fs n) (node_e n) (Some t).

(** ** Archives and the blob store *)

Record ZipInfo : Type := mkZipInfo { filename : string; file_size : Z }.

(** [ZipInfo.is_dir]: a directory entry is one whose name ends in [/]. *)
Definition is_dir (z : ZipInfo) : bool :=
  PyStr.endswith_char (filename z) PosixPath.sep_char.

(** [ZipFile.getinfo]: the name table keeps the last entry of a name. *)
Definition getinfo (infolist : list ZipInfo) (name : string) : result ZipInfo :=
  match find (fun z => filename z =? name) (rev infolist) with
  | Some z => Ok z
  | None => Raise (KeyError name)
  end.

Record FileMetadata : Type := mkFileMetadata { metadata_path : string; size_in_bytes : Z }.

(** [FileSystems]: [FileSystems_open p] is the entry list of
    [ZipFile(FileSystems.open(p))], [FileSystems_match p] is
    [FileSystems.match([p])[0].metadata_list[0]]. *)
Record BlobStore : Type := mkBlobStore {
  FileSystems_exists : string -> bool;
  FileSystems_open : string -> result (list ZipInfo);
  FileSystems_match : string -> result FileMetadata
}.

(** [(bundle_uuid, zip_path, zip_subpath)], the last two possibly [None]. *)
Definition azure_parts : Type := (string * option string * option string)%type.

(** A filter of a comprehension whose condition can raise. *)
Fixpoint filterM {A} (f : A -> result bool) (l : list A) : result (list A) :=
  match l with
  | [] => Ok []
  | x :: xs =>
      b <- f x ;;
      ys <- filterM f xs ;;
      Ok (if b then x :: ys else ys)
  end.

(** [s.startswith(p)] and [s.replace(p, "")] where [p] may be [None]. *)
Definition startswith_arg (s : string) (p : option string) : result bool :=
  match p with
  | Some p => Ok (PyStr.startswith s p)
  | None => Raise TypeError
  end.

Definition replace_arg (s : string) (p : option string) : result string :=
  match p with
  | Some p => Ok (PyStr.remove_all s p)
  | None => Raise TypeError
  end.

Definition sum_Z (l : list Z) : Z := fold_right Z.add 0%Z l.

Definition get_last_part (path : string) : string :=
  last (PyStr.split PosixPath.sep_char path) "".

Definition truthy (s : option string) : bool :=
  match s with
  | Some s => negb (s =? "")
  | None => false
  end.

Section Indexers.

(** [codalab.lib.path_util.parse_azure_url] is not part of this file. *)
Variable parse_azure_url : string -> result azure_parts.
Variable store : BlobStore.
Variable os : OS.

(** The directory entries that do not start with the internal path
    (line 179). *)
Definition beam_dirs (infolist : list ZipInfo) (zip_subpath : option string)
  : result (list string) :=
  ds <- filterM (fun z => if is_dir z
                          then b <- startswith_arg (filename z) zip_subpath ;;
                               Ok (negb b)
                          else Ok false) infolist ;;
  Ok (map filename ds).

(** The entries a directory node lists (the filter of lines 181 and 188). *)
Definition beam_selected (infolist : list ZipInfo) (zip_subpath : option string)
           (dirs : list string) : result (list ZipInfo) :=
  filterM (fun z =>
             b <- startswith_arg (filename z) zip_subpath ;;
             Ok (b && negb (existsb (fun i => PyStr.startswith (filename z) i) dirs
                            && negb (is_dir z))))
          infolist.

Definition beam_child_path (bundle_uuid : string) (z : ZipInfo) : string :=
  "azfs://storageclwsdev0/bundles/" ++ bundle_uuid ++ "/contents.zip/" ++ filename z.

Definition beam_file_child (z : ZipInfo) : node :=
  mkNode (get_last_part (filename z))
         (Some (if is_dir z then directory else file))
         (file_size z) 511 None None None None None.

(** [_compute_target_info_beam] with the depth budget as a natural number:
    [depth > 0] is [S _], [depth - 1] its predecessor. *)
Fixpoint beam_at (budget : nat) (path : string) {struct budget} : result node :=
  parts <- parse_azure_url path ;;
  let '(bundle_uuid, zip_path, zip_subpath) := parts in
  if match zip_subpath with Some s => s =? "/images/" | None => false end
  then Raise (Exception_ path "/images/")
  else
    let listing (base_name : string) (base_size : Z) (infolist : list ZipInfo) :=
      dirs <- beam_dirs infolist zip_subpath ;;
      selected <- beam_selected infolist zip_subpath dirs ;;
      e <- mapM (fun z =>
                   p <- replace_arg path zip_subpath ;;
                   Ok (PyStr.rstrip PosixPath.sep_char p ++ "/"
                       ++ PyStr.lstrip PosixPath.sep_char (filename z))) selected ;;
      contents <-
        match budget with
        | O => Ok None
        | S budget' =>
            cs <- mapM (fun z =>
                          if negb (is_dir z) then Ok (beam_file_child z)
                          else beam_at budget' (beam_child_path bundle_uuid z))
                       selected ;;
            Ok (Some cs)
        end ;;
      Ok (mkNode base_name (Some directory) base_size 511 None contents
                 (Some "azure") (Some e) None) in
    match zip_path with
    | None =>
        f <- FileSystems_match store path ;;
        Ok (mkNode (PosixPath.basename (metadata_path f)) (Some file) (size_in_bytes f) 511
                   None None None None None)
    | Some zip_path =>
        if negb (truthy zip_subpath) then
          infolist <- FileSystems_open store zip_path ;;
          listing bundle_uuid (sum_Z (map file_size infolist)) infolist
        else
          infolist <- FileSystems_open store zip_path ;;
          zipinfo <- getinfo infolist (match zip_subpath with Some s => s | None => "" end) ;;
          if negb (is_dir zipinfo) then
            Ok (mkNode (filename zipinfo) (Some file) (file_size zipinfo) 511
                       None None (Some "azure") None None)
          else listing (filename zipinfo) (file_size zipinfo) infolist
    end.

Definition _compute_target_info_beam (path : string) (depth : Z) : result node :=
  beam_at (Z.to_nat depth) path.

(** [_compute_target_info], budget as a natural number.  The final
    [if result is None] of the source cannot fire: [result] is a dict. *)
Fixpoint local_at (budget : nat) (path : string) {struct budget} : result node :=
  if PyStr.startswith path azfs then beam_at budget path
  else
    stat <- lstat os path ;;
    let name := PosixPath.basename path in
    let size := st_size stat in
    let perm := Z.land (st_mode stat) 511 in
    if islink os path then
      l <- readlink os path ;;
      Ok (mkNode name (Some link) size perm (Some l) None None None None)
    else if isfile os path then
      Ok (mkNode name (Some file) size perm None None None None None)
    else if isdir os path then
      match budget with
      | O => Ok (mkNode name (Some directory) size perm None None None None None)
      | S budget' =>
          names <- listdir os path ;;
          cs <- mapM (fun file_name =>
                        local_at budget' (PosixPath.join path file_name)) names ;;
          Ok (mkNode name (Some directory) size perm None (Some cs) None None None)
      end
    else Ok (mkNode name None size perm None None None None None).

Definition _compute_target_info (path : string) (depth : Z) : result node :=
  local_at (Z.to_nat depth) path.

Definition get_target_info (bundle_path : string) (target : BundleTarget) (depth : Z)
  : result node :=
  final_path <- _get_normalized_target_path os bundle_path target ;;
  if negb (PyStr.startswith final_path azfs)
     && negb (islink os final_path)
     && negb (FileSystems_exists store final_path)
  then Raise (PathException ("Path " ++ bundle_uuid target ++ " in bundle "
                             ++ subpath target ++ " not found"))
  else
    info <- _compute_target_info final_path depth ;;
    Ok (set_resolved_target info target).

End Indexers.

(** ** The locator parser *)

(** Modelled from the spec: [parse_azure_url] (codalab/lib/path_util.py) is
    missing from the sources at hand.  A remote-archive locator has the form
    [scheme://store/bundle/archive-path[/internal-path]]; the recursive call
    of [_compute_target_info_beam] builds
    [azfs://storageclwsdev0/bundles/<uuid>/contents.zip/<internal path>].
    The locator separates which blob from which path inside it: the blob is
    the first four components after the scheme, the internal path is the
    rest.  A blob that is not a [.zip] archive has no archive path (the
    single-file case), and an absent internal path is the empty string. *)
Definition parse_azure_url (url : string) : result azure_parts :=
  if PyStr.startswith url azfs then
    match PyStr.split PosixPath.sep_char
                      (String.substring 7 (String.length url - 7) url) with
    | account :: container :: uuid :: contents_file :: remainder =>
        let blob := azfs ++ account ++ "/" ++ container ++ "/" ++ uuid
                    ++ "/" ++ contents_file in
        Ok (uuid,
            if PyStr.endswith contents_file ".zip" then Some blob else None,
            Some (PyStr.join "/" remainder))
    | _ => Raise (ValueError url)
    end
  else Raise (ValueError url).

(** A blob store holding the given archives and plain files. *)
Definition assoc {A} (k : string) (l : list (string * A)) : option A :=
  match find (fun kv => fst kv =? k) l with
  | Some kv => Some (snd kv)
  | None => None
  end.

Definition store_of (archives : list (string * list ZipInfo))
           (files : list (string * Z)) : BlobStore :=
  mkBlobStore
    (fun p => match assoc p archives, assoc p files with
              | None, None => false
              | _, _ => true
              end)
    (fun p => match assoc p archives with
              | Some l => Ok l
              | None => Raise (BeamIOError p)
              end)
    (fun p => match assoc p files with
              | Some n => Ok (mkFileMetadata p n)
              | None => Raise (BeamIOError p)
              end).

(** ** A POSIX file tree

    A model of what the operating system answers, for running the resolver
    and the local indexer on concrete trees: directories, regular files,
    symbolic links and other nodes, with links followed in every component
    but (for [lstat]) the last. *)
Module Posix.

Local Open Scope list_scope.

#[warnings="-register-all"]
Inductive inode : Type :=
| File (size mode : Z)
| Dir (size mode : Z) (entries : list (string * inode))
| Symlink (size mode : Z) (target : string)
| Special (size mode : Z).

Record filesystem : Type := mkFs { root : inode; cwd : list string }.

Definition inode_stat (n : inode) : stat_result :=
  match n with
  | File s m | Dir s m _ | Symlink s m _ | Special s m => mkStat s m
  end.

(** The node at a link-free list of components. *)
Fixpoint get (n : inode) (comps : list string) : option inode :=
  match comps with
  | [] => Some n
  | c :: cs =>
      match n with
      | Dir _ _ es =>
          match assoc c es with
          | Some n' => get n' cs
          | None => None
          end
      | _ => None
      end
  end.

Inductive walk_mode : Type := Lstat | Stat | Real.

Definition is_real (m : walk_mode) : bool :=
  match m with Real => true | _ => false end.
Definition is_lstat (m : walk_mode) : bool :=
  match m with Lstat => true | _ => false end.
Definition no_more (rest : list string) : bool :=
  match rest with [] => true | _ => false end.

(** Path walk from the link-free directory [cur].  [Lstat] and [Stat] fail
    on a missing component, [Real] keeps it, as [os.path.realpath] does. *)
Fixpoint walk (fuel : nat) (r : inode) (m : walk_mode) (cur comps : list string)
  : option (list string) :=
  match comps with
  | [] => Some cur
  | c :: rest =>
      match fuel with
      | O => if is_real m then Some (cur ++ comps) else None
      | S fuel' =>
          if (c =? "") || (c =? ".") then walk fuel' r m cur rest
          else if c =? ".." then walk fuel' r m (removelast cur) rest
          else
            match get r (cur ++ [c]) with
            | Some (Symlink _ _ t) =>
                if is_lstat m && no_more rest then Some (cur ++ [c])
                else walk fuel' r m
                          (if PyStr.startswith t "/" then [] else cur)
                          (PyStr.split PosixPath.sep_char t ++ rest)
            | Some (Dir _ _ _) => walk fuel' r m (cur ++ [c]) rest
            | Some _ =>
                if is_real m || no_more rest then walk fuel' r m (cur ++ [c]) rest
                else None
            | None => if is_real m then walk fuel' r m (cur ++ [c]) rest else None
            end
      end
  end.

Definition resolve (fs : filesystem) (m : walk_mode) (p : string)
  : option (list string) :=
  if p =? "" then (if is_real m then Some (cwd fs) else None)
  else walk 256 (root fs) m
            (if PyStr.startswith p "/" then [] else cwd fs)
            (PyStr.split PosixPath.sep_char p).

Definition node_at (fs : filesystem) (m : walk_mode) (p : string) : option inode :=
  match resolve fs m p with
  | Some comps => get (root fs) comps
  | None => None
  end.

Definition os_of (fs : filesystem) : OS :=
  mkOS
    (fun p => match resolve fs Real p with
              | Some comps => ("/" ++ PyStr.join "/" comps)%string
              | None => p
              end)
    (fun p => match node_at fs Lstat p with Some (Symlink _ _ _) => true | _ => false end)
    (fun p => match node_at fs Stat p with Some (File _ _) => true | _ => false end)
    (fun p => match node_at fs Stat p with Some (Dir _ _ _) => true | _ => false end)
    (fun p => match node_at fs Lstat p with
              | Some n => Ok (inode_stat n)
              | None => Raise (OSError p)
              end)
    (fun p => match node_at fs Lstat p with
              | Some (Symlink _ _ t) => Ok t
              | _ => Raise (OSError p)
              end)
    (fun p => match node_at fs Stat p with
              | Some (Dir _ _ es) => Ok (map fst es)
              | _ => Raise (OSError p)
              end).

(** [FileSystems.exists] on a local path is [os.path.exists]. *)
Definition exists_ (fs : filesystem) (p : string) : bool :=
  match node_at fs Stat p with Some _ => true | None => false end.

Definition local_store (fs : filesystem) : BlobStore :=
  mkBlobStore (exists_ fs)
              (fun p => Raise (BeamIOError p))
              (fun p => Raise (BeamIOError p)).

End Posix.

(** ** Notions the properties are stated with *)

(** The non-empty components of a path. *)
Definition components (p : string) : list string :=
  filter (fun c => negb (c =? "")) (PyStr.split PosixPath.sep_char p).

Fixpoint list_prefix (a b : list string) : bool :=
  match a, b with
  | [], _ => true
  | x :: a', y :: b' => (x =? y) && list_prefix a' b'
  | _ :: _, [] => false
  end.

(** [p] is the directory [root] or lies below it. *)
Definition inside_root (root p : string) : bool :=
  list_prefix (components root) (components p).

(** The directories an absolute path passes through, nearest last. *)
Fixpoint ancestors_from (acc : string) (comps : list string) : list string :=
  match comps with
  | [] => []
  | c :: rest =>
      match rest with
      | [] => []
      | _ => (acc ++ "/" ++ c) :: ancestors_from (acc ++ "/" ++ c) rest
      end
  end.

Definition ancestors (p : string) : list string := ancestors_from "" (components p).

Definition has_dotdot (subpath : string) : bool :=
  existsb (fun c => c =? "..") (PyStr.split PosixPath.sep_char subpath).

(** The root the containment check compares with. *)
Definition real_root (os : OS) (bundle_path : string) : string :=
  if PyStr.startswith bundle_path azfs then bundle_path else realpath os bundle_path.

(** What a failure message may mention: the requested bundle and subpath. *)
Definition requested (target : BundleTarget) : string :=
  _get_target_path (bundle_uuid target) (subpath target).

Definition not_inside_message (target : BundleTarget) : string :=
  requested target ++ " is not inside the bundle.".

Definition symlink_message (target : BundleTarget) : string :=
  requested target ++ " is a symlink and following symlinks is not allowed.".

(** [contents] only on directories, only while the budget is positive, the
    children held to the budget less one. *)
Fixpoint within_budget (budget : nat) (n : node) : bool :=
  match node_contents n with
  | None => true
  | Some cs =>
      match node_type n, budget with
      | Some directory, S budget' => forallb (within_budget budget') cs
      | _, _ => false
      end
  end.

(** The immediate children of the directory [prefix] of an archive, in the
    words of the specification: the entries below [prefix] with no further
    directory level in between. *)
Definition remainder (prefix name : string) : string :=
  String.substring (String.length prefix) (String.length name - String.length prefix) name.

Definition immediate_child (prefix : string) (z : ZipInfo) : bool :=
  PyStr.startswith (filename z) prefix
  && negb (filename z =? prefix)
  && Nat.eqb (List.length
                (PyStr.split PosixPath.sep_char
                             (PyStr.rstrip PosixPath.sep_char
                                           (remainder prefix (filename z))))) 1.

Definition immediate_children (infolist : list ZipInfo) (prefix : string)
  : list string :=
  map filename (filter (immediate_child prefix) infolist).

Definition child_names (r : result node) : option (list string) :=
  match r with
  | Ok n => option_map (map node_name) (node_contents n)
  | Raise _ => None
  end.

Definition is_PathException (e : exn) : bool :=
  match e with PathException _ => true | _ => false end.

(** ** Concrete trees and archives *)
Module Fixtures.

(** [/store/bundle] next to [/store/bundle2]; inside the bundle a file, a
    directory, a link to a file outside and a link to the directory. *)
Definition tree : Posix.filesystem :=
  Posix.mkFs
    (Posix.Dir 4096 493
       [("store", Posix.Dir 4096 493
           [("bundle", Posix.Dir 4096 493
               [("f", Posix.File 3 420);
                ("lnk", Posix.Symlink 11 511 "/etc/passwd");
                ("d", Posix.Dir 4096 493 [("g", Posix.File 5 420)]);
                ("ld", Posix.Symlink 1 511 "d")]);
            ("bundle2", Posix.Dir 4096 493 [("f", Posix.File 7 420)])]);
        ("etc", Posix.Dir 4096 493 [("passwd", Posix.File 100 420)])])
    [].

Definition os : OS := Posix.os_of tree.
Definition local : BlobStore := Posix.local_store tree.

(** The archive of [create_zip_complex] (streamingzipfile_test.py). *)
Definition complex : list ZipInfo :=
  [mkZipInfo "a/" 0; mkZipInfo "a/b/" 0; mkZipInfo "a/b/file.txt" 11;
   mkZipInfo "c/" 0; mkZipInfo "c/d/" 0; mkZipInfo "c/d/e/" 0;
   mkZipInfo "file.txt" 11].

Definition blob : string := "azfs://storageclwsdev0/bundles/0x1/contents.zip".

Definition remote : BlobStore := store_of [(blob, complex)] [].

End Fixtures.

(** ** The streaming archive reader *)
Module StreamingZip.

Local Open Scope list_scope.

Definition bytes : Type := list Byte.byte.

(** Modelled from the spec: [StreamingZipFile]
    (codalab/lib/beam/streamingzipfile.py) is missing from the sources at
    hand; only its tests are there.  Decompression is performed
    incrementally, per the compression method of the entry: a method is a
    decoder with a state of its own that takes the compressed bytes one
    after the other and gives the decompressed bytes each one completes. *)
Class Decompressor : Type := {
  dstate : Type;
  dinit : dstate;
  dstep : dstate -> Byte.byte -> dstate * bytes
}.

(** Method 0, stored: the body is the content. *)
Definition Stored : Decompressor :=
  {| dstate := unit; dinit := tt; dstep := fun s b => (s, [b]) |}.

(** Method 8, deflate, for streams of stored blocks (RFC 1951, 3.2.4): a
    header byte whose bit 0 marks the last block and whose bits 1-2 are the
    block type 00, the length and its complement on two little-endian
    bytes each, then that many literal bytes. *)
Inductive inflate_state : Type :=
| BlockHeader
| Len0 (final : bool)
| Len1 (final : bool) (lo : N)
| NLen0 (final : bool) (len : N)
| NLen1 (final : bool) (len : N) (lo : N)
| Literal (final : bool) (todo : N)
| Finished
| Unsupported.

Definition after_block (final : bool) : inflate_state :=
  if final then Finished else BlockHeader.

Definition inflate_step (s : inflate_state) (b : Byte.byte)
  : inflate_state * bytes :=
  let v := Byte.to_N b in
  match s with
  | BlockHeader =>
      if N.eqb (N.land (N.shiftr v 1) 3) 0
      then (Len0 (N.testbit v 0), [])
      else (Unsupported, [])
  | Len0 final => (Len1 final v, [])
  | Len1 final lo => (NLen0 final (N.lor lo (N.shiftl v 8)), [])
  | NLen0 final len => (NLen1 final len v, [])
  | NLen1 final len lo =>
      if N.eqb (N.lxor len (N.lor lo (N.shiftl v 8))) 65535
      then (if N.eqb len 0 then after_block final else Literal final len, [])
      else (Unsupported, [])
  | Literal final todo =>
      (if N.eqb todo 1 then after_block final else Literal final (N.pred todo), [b])
  | Finished => (Finished, [])
  | Unsupported => (Unsupported, [])
  end.

Definition DeflateStored : Decompressor :=
  {| dstate := inflate_state; dinit := BlockHeader; dstep := inflate_step |}.

Section Reader.

Context {D : Decompressor}.

Fixpoint feed (s : dstate) (bs : bytes) : dstate * bytes :=
  match bs with
  | [] => (s, [])
  | b :: bs' =>
      let (s1, o1) := dstep s b in
      let (s2, o2) := feed s1 bs' in
      (s2, o1 ++ o2)
  end.

(** Decompressing the complete buffer at once. *)
Definition decompress (body : bytes) : bytes := snd (feed dinit body).

(** Modelled from the spec: the handle [open_entry] gives.  The byte
    source is append-only and may grow while it is read; the local
    header's compressed size says how many bytes belong to the body; the
    consumer is never given bytes beyond what has been written, and a
    read that finds none is a retryable [NotYetAvailable] that leaves the
    handle, the decoder state included, as it was. *)
Record handle : Type := mkHandle {
  source : bytes;
  position : nat;
  compress_left : nat;
  decoder : dstate
}.

Definition open_entry (compress_size : nat) : handle :=
  mkHandle [] 0 compress_size dinit.

Definition write (h : handle) (bs : bytes) : handle :=
  mkHandle (source h ++ bs) (position h) (compress_left h) (decoder h).

Inductive outcome : Type :=
| Data (out : bytes)
| NotYetAvailable.

(** [_read1(n)]: up to [n] compressed bytes are read and decompressed. *)
Definition _read1 (h : handle) (n : nat) : handle * outcome :=
  match Nat.min n (compress_left h) with
  | O => (h, Data [])
  | S _ as want =>
      match firstn want (skipn (position h) (source h)) with
      | [] => (h, NotYetAvailable)
      | chunk =>
          let (s', out) := feed (decoder h) chunk in
          (mkHandle (source h) (position h + List.length chunk)
                    (compress_left h - List.length chunk) s',
           Data out)
      end
  end.

(** A producer and a consumer taking turns on one handle. *)
Inductive event : Type :=
| Produce (bs : bytes)
| Consume (n : nat).

Definition step (h : handle) (ev : event) : handle * bytes :=
  match ev with
  | Produce bs => (write h bs, [])
  | Consume n =>
      match _read1 h n with
      | (h', Data out) => (h', out)
      | (h', NotYetAvailable) => (h', [])
      end
  end.

Fixpoint run (h : handle) (evs : list event) : handle * bytes :=
  match evs with
  | [] => (h, [])
  | ev :: evs' =>
      let (h1, o1) := step h ev in
      let (h2, o2) := run h1 evs' in
      (h2, o1 ++ o2)
  end.

Definition produced (evs : list event) : bytes :=
  flat_map (fun ev => match ev with Produce bs => bs | Consume _ => [] end) evs.

(** Each chunk is written, then read back in reads of one byte. *)
Definition trickle (chunks : list bytes) : list event :=
  flat_map (fun c => Produce c :: repeat (Consume 1) (List.length c)) chunks.

(** The compressed bytes the next read of [n] takes. *)
Definition next_chunk (h : handle) (n : nat) : bytes :=
  firstn (Nat.min n (compress_left h)) (skipn (position h) (source h)).

(** What a handle has given so far is the decompression of the bytes it
    has consumed, and its decoder is where those bytes left it. *)
Definition consistent (size : nat) (h : handle) (out : bytes) : Prop :=
  position h <= List.length (source h)
  /\ position h + compress_left h = size
  /\ feed dinit (firstn (position h) (source h)) = (decoder h, out).

End Reader.

Definition hello_world : bytes := list_byte_of_string "hello world".

(** The schedule of [test_unseekable_file_read_partially]: three bytes are
    there and are read one by one, the rest is appended, eight more reads. *)
Definition partial_schedule (contents : bytes) : list event :=
  Produce (firstn 3 contents) :: repeat (Consume 1) 3
  ++ Produce (skipn 3 contents) :: repeat (Consume 1) 8.

(** "hello world" as one final stored block of a deflate stream. *)
Definition hello_deflated : bytes :=
  map (fun n => match Byte.of_N n with Some b => b | None => Byte.x00 end)
      [1; 11; 0; 244; 255]%N ++ hello_world.

End StreamingZip.

(** ** Notions for the properties of whole trees *)

Fixpoint contains_char (c : ascii) (s : string) : bool :=
  match s with
  | EmptyString => false
  | String a s' => Ascii.eqb a c || contains_char c s'
  end.

(** A property of every node of a tree. *)
Fixpoint all_nodes (P : node -> bool) (n : node) {struct n} : bool :=
  P n
  && match n with
     | mkNode _ _ _ _ _ cs _ _ _ =>
         match cs with
         | Some l => forallb (all_nodes P) l
         | None => true
         end
     end.

Definition with_contents (n : node) (cs : option (list node)) : node :=
  mkNode (node_name n) (node_type n) (node_size n) (node_perm n) (node_link n)
         cs (node_fs n) (node_e n) (node_resolved_target n).

(** The tree cut [k] levels below its root. *)
Fixpoint truncate (k : nat) (n : node) : node :=
  match k with
  | O => with_contents n None
  | S k' => with_contents n (option_map (map (truncate k')) (node_contents n))
  end.

(** What every node below the root of an index looks like: permission bits
    within [0o777], a link target exactly on the nodes of type [link], and
    no [resolved_target]. *)
Definition inner_node_ok (n : node) : bool :=
  (0 <=? node_perm n)%Z && (node_perm n <=? 511)%Z
  && match node_type n, node_link n with
     | Some link, Some _ => true
     | Some link, None => false
     | _, Some _ => false
     | _, None => true
     end
  && match node_resolved_target n with
     | None => true
     | Some _ => false
     end.


(** The components [normpath] keeps when it meets no [..]. *)
Definition kept (comp : string) : bool :=
  negb ((comp =? "") || (comp =? ".")).

Definition leading (slashes : nat) : string :=
  match slashes with
  | 0 => ""
  | 1 => "/"
  | _ => "//"
  end.


(** * Properties *)

(** ** [posixpath] and [str] on examples *)

Example normpath_ex1 : PosixPath.normpath "/store/bundle/../bundle2/f" = "/store/bundle2/f".
Proof. reflexivity. Qed.
Example normpath_ex2 : PosixPath.normpath "//a/./b//c/../../.." = "//".
Proof. reflexivity. Qed.
Example normpath_ex3 : PosixPath.normpath "a/../../b/" = "../b".
Proof. reflexivity. Qed.
Example normpath_ex4 : PosixPath.normpath "///a/.." = "/".
Proof. reflexivity. Qed.
Example replace_ex : PyStr.remove_all "xa/bya/a/" "a/" = "xby".
Proof. reflexivity. Qed.
Example rstrip_ex : PyStr.rstrip "/"%char "a/b//" = "a/b".
Proof. reflexivity. Qed.

Example ancestors_ex :
  ancestors "/store/bundle/ld/g" = ["/store"; "/store/bundle"; "/store/bundle/ld"].
Proof. reflexivity. Qed.

(** ** The path resolver *)

Section Resolver.

Variable os : OS.
Variables (bundle_path : string) (target : BundleTarget).

(** What the containment check does establish: a returned location has the
    real root as a textual prefix. *)
Lemma normalized_startswith_root (p : string) :
  _get_normalized_target_path os bundle_path target = Ok p ->
  PyStr.startswith p (real_root os bundle_path) = true.
Proof.
  unfold _get_normalized_target_path, real_root.
  destruct (negb (PyStr.startswith _ _)) eqn:E; intro H; [discriminate|].
  apply negb_false_iff in E. injection H as <-. exact E.
Qed.

Lemma normalized_raises (e : exn) :
  _get_normalized_target_path os bundle_path target = Raise e ->
  e = PathException (not_inside_message target).
Proof.
  unfold _get_normalized_target_path.
  destruct (negb (PyStr.startswith _ _)); intro H; [|discriminate].
  injection H as <-. reflexivity.
Qed.

Lemma get_target_path_ok (p : string) :
  _get_normalized_target_path os bundle_path target = Ok p ->
  get_target_path os bundle_path target =
    if islink os p then Raise (PathException (symlink_message target)) else Ok p.
Proof.
  intro H. unfold get_target_path. rewrite H. reflexivity.
Qed.

Lemma get_target_path_raises (e : exn) :
  get_target_path os bundle_path target = Raise e ->
  e = PathException (not_inside_message target)
  \/ e = PathException (symlink_message target).
Proof.
  destruct (_get_normalized_target_path os bundle_path target) as [p|e0] eqn:N.
  - rewrite (get_target_path_ok p N).
    destruct (islink os p); intro H; [|discriminate].
    injection H as <-. now right.
  - unfold get_target_path. rewrite N. cbn. intro H. injection H as <-.
    left. now apply normalized_raises.
Qed.

End Resolver.

(** C9: there is a subpath with [..] that the resolver lets through to a
    location outside the bundle root.  With the root [/store/bundle], the
    subpath [../bundle2/f] normalizes to [/store/bundle2/f], a file of the
    sibling directory [bundle2]; the check is [startswith] on the root with no
    separator after it, and [/store/bundle2/f] does start with
    [/store/bundle]. *)
Theorem sibling_prefix_escapes (os : OS) (uuid : string) :
  realpath os "/store/bundle" = "/store/bundle" ->
  has_dotdot "../bundle2/f" = true
  /\ _get_normalized_target_path os "/store/bundle" (mkBundleTarget uuid "../bundle2/f")
     = Ok "/store/bundle2/f"
  /\ PyStr.startswith "/store/bundle2/f" "/store/bundle" = true
  /\ inside_root "/store/bundle" "/store/bundle2/f" = false.
Proof.
  intro R. repeat split.
  unfold _get_normalized_target_path.
  change (PyStr.startswith "/store/bundle" azfs) with false.
  cbv iota. rewrite R. reflexivity.
Qed.

Lemma sibling_prefix_escapes_witness :
  realpath Fixtures.os "/store/bundle" = "/store/bundle"
  /\ _get_normalized_target_path Fixtures.os "/store/bundle"
       (mkBundleTarget "0xab" "../bundle2/f") = Ok "/store/bundle2/f".
Proof.
  split; [reflexivity|].
  apply (sibling_prefix_escapes Fixtures.os "0xab"). reflexivity.
Defined.

(** C1: a subpath whose [..] leaves the bundle root must be refused, but on
    the tree of [Fixtures], with the root [/store/bundle], the subpath
    [../bundle2/f] is resolved to the file [/store/bundle2/f] of the
    neighbouring directory, by [get_target_path] and by [get_target_info]
    alike. *)
Theorem traversal_to_sibling_not_refused :
  has_dotdot "../bundle2/f" = true
  /\ inside_root (realpath Fixtures.os "/store/bundle")
                 (PosixPath.normpath "/store/bundle/../bundle2/f") = false
  /\ get_target_path Fixtures.os "/store/bundle" (mkBundleTarget "0xab" "../bundle2/f")
     = Ok "/store/bundle2/f"
  /\ get_target_info parse_azure_url Fixtures.local Fixtures.os "/store/bundle"
                     (mkBundleTarget "0xab" "../bundle2/f") 0
     = Ok (mkNode "f" (Some file) 7 420 None None None None
                  (Some (mkBundleTarget "0xab" "../bundle2/f"))).
Proof. repeat split. Qed.

(** C4: when the location the resolver selects is itself a symbolic link,
    [get_target_path] raises the [PathException] that says so; when it is
    not, the location is returned, also when directories on the way to it are
    symbolic links. *)
Theorem get_target_path_symlink_gate
        (os : OS) (bundle_path : string) (target : BundleTarget) (final_path : string) :
  _get_normalized_target_path os bundle_path target = Ok final_path ->
  (islink os final_path = true ->
   get_target_path os bundle_path target
   = Raise (PathException (symlink_message target)))
  /\ (islink os final_path = false ->
      get_target_path os bundle_path target = Ok final_path)
  /\ (forall dir, In dir (ancestors final_path) -> islink os dir = true ->
      islink os final_path = false ->
      get_target_path os bundle_path target = Ok final_path).
Proof.
  intro N. rewrite (get_target_path_ok os bundle_path target final_path N).
  repeat split; intros; repeat match goal with H : islink _ _ = _ |- _ => rewrite H end;
    reflexivity.
Qed.

Lemma get_target_path_symlink_gate_witness :
  get_target_path Fixtures.os "/store/bundle" (mkBundleTarget "0xab" "lnk")
  = Raise (PathException
             "0xab/lnk is a symlink and following symlinks is not allowed.")
  /\ islink Fixtures.os "/store/bundle/ld" = true
  /\ get_target_path Fixtures.os "/store/bundle" (mkBundleTarget "0xab" "ld/g")
     = Ok "/store/bundle/ld/g".
Proof.
  split; [|split].
  - apply (get_target_path_symlink_gate Fixtures.os "/store/bundle"
             (mkBundleTarget "0xab" "lnk") "/store/bundle/lnk"); reflexivity.
  - reflexivity.
  - apply (get_target_path_symlink_gate Fixtures.os "/store/bundle"
             (mkBundleTarget "0xab" "ld/g") "/store/bundle/ld/g"
             eq_refl) with (dir := "/store/bundle/ld").
    + simpl. tauto.
    + reflexivity.
    + reflexivity.
Defined.

(** C8: a failure of path resolution carries a message made of the requested
    bundle identifier and subpath and a fixed text; the bundle's location on
    disk and the resolved path are no part of it, and resolving the same
    target against any other root or file tree fails with the very same
    message. *)
Theorem failure_message_names_request_only
        (os os' : OS) (bundle_path bundle_path' : string) (target : BundleTarget)
        (e e' : exn) :
  (_get_normalized_target_path os bundle_path target = Raise e ->
   e = PathException (not_inside_message target))
  /\ (get_target_path os bundle_path target = Raise e ->
      e = PathException (not_inside_message target)
      \/ e = PathException (symlink_message target))
  /\ (_get_normalized_target_path os bundle_path target = Raise e ->
      _get_normalized_target_path os' bundle_path' target = Raise e' ->
      e = e').
Proof.
  split; [|split].
  - apply normalized_raises.
  - apply get_target_path_raises.
  - intros H H'. apply normalized_raises in H, H'. congruence.
Qed.

Lemma failure_message_names_request_only_witness :
  PosixPath.normpath "/store/bundle/../../etc" = "/etc"
  /\ PathException "0xab/../../etc is not inside the bundle."
     = PathException (not_inside_message (mkBundleTarget "0xab" "../../etc"))
  /\ (PathException "0xab/lnk is a symlink and following symlinks is not allowed."
      = PathException (not_inside_message (mkBundleTarget "0xab" "lnk"))
      \/ PathException "0xab/lnk is a symlink and following symlinks is not allowed."
         = PathException (symlink_message (mkBundleTarget "0xab" "lnk"))).
Proof.
  split; [reflexivity|split].
  - apply (proj1 (failure_message_names_request_only Fixtures.os Fixtures.os
             "/store/bundle" "/store/bundle" (mkBundleTarget "0xab" "../../etc")
             (PathException "0xab/../../etc is not inside the bundle.")
             (PathException "0xab/../../etc is not inside the bundle."))).
    reflexivity.
  - apply (proj1 (proj2 (failure_message_names_request_only Fixtures.os Fixtures.os
             "/store/bundle" "/store/bundle" (mkBundleTarget "0xab" "lnk")
             (PathException "0xab/lnk is a symlink and following symlinks is not allowed.")
             (PathException "0xab/lnk is a symlink and following symlinks is not allowed.")))).
    reflexivity.
Defined.

(** ** The error monad *)

Lemma bind_Ok {A B} (m : result A) (k : A -> result B) (b : B) :
  bind m k = Ok b -> exists a, m = Ok a /\ k a = Ok b.
Proof. destruct m as [a|e]; cbn; [eauto | discriminate]. Qed.

Lemma bind_Raise {A B} (m : result A) (k : A -> result B) (e : exn) :
  m = Raise e -> bind m k = Raise e.
Proof. intros ->. reflexivity. Qed.

Ltac bind_inv H :=
  let a := fresh "a" in
  let Ha := fresh "Ha" in
  apply bind_Ok in H; destruct H as (a & Ha & H).

Lemma mapM_forallb {A B} (f : A -> result B) (P : B -> bool) (l : list A) :
  (forall x y, In x l -> f x = Ok y -> P y = true) ->
  forall ys, mapM f l = Ok ys -> forallb P ys = true.
Proof.
  induction l as [|x xs IH]; cbn [mapM]; intros Hf ys H.
  - injection H as <-. reflexivity.
  - bind_inv H. bind_inv H. injection H as <-. cbn.
    rewrite (Hf x a (or_introl eq_refl) Ha), (IH (fun x' y' Hin => Hf x' y' (or_intror Hin)) _ Ha0).
    reflexivity.
Qed.


(** ** The depth budget *)

Lemma budget_zero (depth : Z) : (depth <= 0)%Z -> Z.to_nat depth = 0.
Proof. lia. Qed.

Lemma budget_succ (depth : Z) :
  (0 < depth)%Z -> Z.to_nat depth = S (Z.to_nat (depth - 1)).
Proof. lia. Qed.

Section Budget.

Variable parse : string -> result azure_parts.
Variable store : BlobStore.
Variable os : OS.

Lemma beam_at_within_budget (budget : nat) :
  forall path n, beam_at parse store budget path = Ok n ->
                 within_budget budget n = true.
Proof.
  induction budget as [|b IH]; intros path n H; cbn [beam_at] in H.
  - bind_inv H. destruct a as [[uuid zp] sub].
    destruct (match sub with Some s => s =? "/images/" | None => false end);
      [discriminate|].
    destruct zp as [zp|].
    + destruct (negb (truthy sub)).
      * repeat bind_inv H. injection Ha4 as <-. injection H as <-. reflexivity.
      * bind_inv H. bind_inv H. destruct (negb (is_dir a0)).
        -- injection H as <-. reflexivity.
        -- repeat bind_inv H. injection Ha5 as <-. injection H as <-. reflexivity.
    + bind_inv H. injection H as <-. reflexivity.
  - bind_inv H. destruct a as [[uuid zp] sub].
    destruct (match sub with Some s => s =? "/images/" | None => false end);
      [discriminate|].
    assert (K : forall sel cs,
               mapM (fun z => if negb (is_dir z) then Ok (beam_file_child z)
                              else beam_at parse store b (beam_child_path uuid z)) sel
               = Ok cs -> forallb (within_budget b) cs = true).
    { intros sel cs. apply mapM_forallb. intros z y _.
      destruct (negb (is_dir z)); intro E.
      - injection E as <-. destruct b; reflexivity.
      - now apply IH in E. }
    destruct zp as [zp|].
    + destruct (negb (truthy sub)).
      * repeat bind_inv H. injection H as <-. bind_inv Ha4. injection Ha4 as <-.
        cbn. eapply K; eassumption.
      * bind_inv H. bind_inv H. destruct (negb (is_dir a0)).
        -- injection H as <-. reflexivity.
        -- repeat bind_inv H. injection H as <-. bind_inv Ha5. injection Ha5 as <-.
           cbn. eapply K; eassumption.
    + bind_inv H. injection H as <-. reflexivity.
Qed.

End Budget.

Section LocalBudget.

Variable parse : string -> result azure_parts.
Variable store : BlobStore.
Variable os : OS.

Lemma local_at_within_budget (budget : nat) :
  forall path n, local_at parse store os budget path = Ok n ->
                 within_budget budget n = true.
Proof.
  induction budget as [|b IH]; intros path n H; cbn [local_at] in H;
    (destruct (PyStr.startswith path azfs);
     [now apply beam_at_within_budget in H|]);
    bind_inv H;
    (destruct (islink os path); [bind_inv H; injection H as <-; reflexivity|]);
    (destruct (isfile os path); [injection H as <-; reflexivity|]);
    (destruct (isdir os path); [|injection H as <-; reflexivity]).
  - injection H as <-. reflexivity.
  - bind_inv H. bind_inv H. injection H as <-. cbn.
    eapply mapM_forallb; [|eassumption].
    intros x y _ E. now apply IH in E.
Qed.

(** At budget zero a directory is reported as it is, and its entries are
    not even listed. *)
Lemma local_at_zero_directory (path : string) (st : stat_result) :
  PyStr.startswith path azfs = false ->
  lstat os path = Ok st ->
  islink os path = false -> isfile os path = false -> isdir os path = true ->
  _compute_target_info parse store os path 0
  = Ok (mkNode (PosixPath.basename path) (Some directory) (st_size st)
               (Z.land (st_mode st) 511) None None None None None).
Proof.
  intros A L I F D. unfold _compute_target_info. cbn.
  rewrite A, L. cbn. rewrite I, F, D. reflexivity.
Qed.

(** With a positive depth a directory lists its entries and indexes each
    with the depth less one. *)
Lemma _compute_target_info_descends
      (path : string) (depth : Z) (st : stat_result) (names : list string) :
  (0 < depth)%Z ->
  PyStr.startswith path azfs = false ->
  lstat os path = Ok st ->
  islink os path = false -> isfile os path = false -> isdir os path = true ->
  listdir os path = Ok names ->
  _compute_target_info parse store os path depth
  = (cs <- mapM (fun file_name =>
                   _compute_target_info parse store os
                                        (PosixPath.join path file_name) (depth - 1))
               names ;;
     Ok (mkNode (PosixPath.basename path) (Some directory) (st_size st)
                (Z.land (st_mode st) 511) None (Some cs) None None None)).
Proof.
  intros P A L I F D N. unfold _compute_target_info.
  rewrite (budget_succ depth P). cbn [local_at].
  rewrite A, L. cbn [bind]. rewrite I, F, D, N. reflexivity.
Qed.

Lemma within_budget_contents (budget : nat) (n : node) (cs : list node) :
  within_budget budget n = true -> node_contents n = Some cs ->
  node_type n = Some directory
  /\ exists budget', budget = S budget' /\ forallb (within_budget budget') cs = true.
Proof.
  destruct budget as [|b]; cbn; intros W C; rewrite C in W;
    destruct (node_type n) as [[| |]|]; try discriminate.
  split; [reflexivity|]. now exists b.
Qed.

End LocalBudget.

(** C3: a node that indexing returns has [contents] only if it is a directory
    and the depth budget at that node is positive, the children being held to
    the budget less one, level after level; with depth 0 (or less) the node
    returned has no [contents], whatever lies below it. *)
Theorem contents_only_within_budget
        (parse : string -> result azure_parts) (store : BlobStore) (os : OS)
        (bundle_path : string) (target : BundleTarget) (depth : Z) (n : node) :
  get_target_info parse store os bundle_path target depth = Ok n ->
  within_budget (Z.to_nat depth) n = true
  /\ ((depth <= 0)%Z -> node_contents n = None)
  /\ (forall cs, node_contents n = Some cs ->
                 node_type n = Some directory
                 /\ (0 < depth)%Z
                 /\ forallb (within_budget (Z.to_nat (depth - 1))) cs = true).
Proof.
  intro H. unfold get_target_info in H. bind_inv H.
  destruct (_ && _) in H; [discriminate|].
  bind_inv H. injection H as <-.
  apply local_at_within_budget in Ha0.
  assert (W : within_budget (Z.to_nat depth) (set_resolved_target a0 target) = true).
  { destruct (Z.to_nat depth); exact Ha0. }
  split; [exact W|]. split.
  - intro Le. rewrite (budget_zero depth Le) in W. cbn in W. cbn.
    destruct (node_contents a0); [|reflexivity].
    destruct (node_type a0) as [[| |]|]; discriminate.
  - intros cs C.
    destruct (within_budget_contents _ _ _ W C) as (T & b & E & F).
    split; [exact T|]. split; [lia|].
    replace (Z.to_nat (depth - 1)) with b by lia. exact F.
Qed.

Lemma contents_only_within_budget_witness :
  exists n,
    get_target_info parse_azure_url Fixtures.local Fixtures.os "/store/bundle"
                    (mkBundleTarget "0xab" "") 0 = Ok n
    /\ node_type n = Some directory
    /\ node_contents n = None.
Proof.
  eexists. split; [vm_compute; reflexivity|]. split; [reflexivity|].
  apply (proj1 (proj2 (contents_only_within_budget
                         parse_azure_url Fixtures.local Fixtures.os "/store/bundle"
                         (mkBundleTarget "0xab" "") 0 _ eq_refl))).
  lia.
Defined.

(** ** The archive-backed indexer *)

Section Beam.

Variable parse : string -> result azure_parts.
Variable store : BlobStore.

Lemma getinfo_missing (infolist : list ZipInfo) (name : string) :
  forallb (fun z => negb (filename z =? name)) infolist = true ->
  getinfo infolist name = Raise (KeyError name).
Proof.
  intro H. unfold getinfo.
  destruct (find _ (rev infolist)) as [z|] eqn:F; [|reflexivity].
  apply find_some in F. destruct F as [I E].
  apply in_rev in I.
  rewrite forallb_forall in H. apply H in I. rewrite E in I. discriminate.
Qed.



(** An internal path that no entry of the archive has: the [KeyError] of
    [ZipFile.getinfo] leaves the indexer as it is. *)
Lemma beam_at_missing_entry
      (path uuid zip_path sub : string) (infolist : list ZipInfo) (budget : nat) :
  parse path = Ok (uuid, Some zip_path, Some sub) ->
  (sub =? "") = false -> (sub =? "/images/") = false ->
  FileSystems_open store zip_path = Ok infolist ->
  forallb (fun z => negb (filename z =? sub)) infolist = true ->
  beam_at parse store budget path = Raise (KeyError sub).
Proof.
  intros P E I O M.
  destruct budget; cbn [beam_at]; rewrite P; cbn; rewrite I, E; cbn;
    rewrite O; cbn; rewrite (getinfo_missing _ _ M); reflexivity.
Qed.

End Beam.

(** C10: whenever the locator's internal path is the string [/images/], the
    archive indexer raises the bare [Exception] of line 145, whatever the
    store holds and whatever the depth; it is none of the declared kinds. *)
Theorem images_subpath_raises_generic
        (parse : string -> result azure_parts) (store : BlobStore) (os : OS)
        (path uuid : string) (zip_path : option string) (depth : Z) :
  parse path = Ok (uuid, zip_path, Some "/images/") ->
  _compute_target_info_beam parse store path depth = Raise (Exception_ path "/images/")
  /\ is_PathException (Exception_ path "/images/") = false
  /\ (PyStr.startswith path azfs = true ->
      _compute_target_info parse store os path depth
      = Raise (Exception_ path "/images/")).
Proof.
  intro P.
  assert (B : forall budget,
             beam_at parse store budget path = Raise (Exception_ path "/images/")).
  { intros [|b]; cbn [beam_at]; rewrite P; reflexivity. }
  split; [apply B|]. split; [reflexivity|].
  intro A. unfold _compute_target_info.
  destruct (Z.to_nat depth); cbn [local_at]; rewrite A; apply B.
Qed.

Lemma images_subpath_raises_generic_witness :
  _compute_target_info_beam parse_azure_url Fixtures.remote
                            (Fixtures.blob ++ "//images/") 1
  = Raise (Exception_ (Fixtures.blob ++ "//images/") "/images/").
Proof.
  apply (proj1 (images_subpath_raises_generic
                  parse_azure_url Fixtures.remote Fixtures.os
                  (Fixtures.blob ++ "//images/") "0x1" (Some Fixtures.blob) 1
                  eq_refl)).
Defined.

(** C5: an internal path that the archive does not have should be reported
    as not found, a [PathException]; on the archive of [Fixtures] the path
    [missing] leaves [_compute_target_info_beam] as the [KeyError] of
    [ZipFile.getinfo], at every depth. *)
Theorem missing_entry_raises_KeyError (depth : Z) :
  forallb (fun z => negb (filename z =? "missing")) Fixtures.complex = true
  /\ _compute_target_info_beam parse_azure_url Fixtures.remote
                               (Fixtures.blob ++ "/missing") depth
     = Raise (KeyError "missing")
  /\ is_PathException (KeyError "missing") = false.
Proof.
  split; [reflexivity|]. split; [|reflexivity].
  unfold _compute_target_info_beam.
  now apply (beam_at_missing_entry parse_azure_url Fixtures.remote
               (Fixtures.blob ++ "/missing") "0x1" Fixtures.blob "missing"
               Fixtures.complex).
Qed.

(** ** The entry point *)

(** A local location that does not exist is refused with a [PathException]
    and never indexed. *)
Lemma get_target_info_local_not_found
      (parse : string -> result azure_parts) (store : BlobStore) (os : OS)
      (bundle_path : string) (target : BundleTarget) (depth : Z) (p : string) :
  _get_normalized_target_path os bundle_path target = Ok p ->
  PyStr.startswith p azfs = false ->
  islink os p = false ->
  FileSystems_exists store p = false ->
  get_target_info parse store os bundle_path target depth
  = Raise (PathException ("Path " ++ bundle_uuid target ++ " in bundle "
                          ++ subpath target ++ " not found")).
Proof.
  intros N A I E. unfold get_target_info. rewrite N. cbn. rewrite A, I, E.
  reflexivity.
Qed.

Example get_target_info_local_not_found_ex :
  get_target_info parse_azure_url Fixtures.local Fixtures.os "/store/bundle"
                  (mkBundleTarget "0xab" "nope") 3
  = Raise (PathException "Path 0xab in bundle nope not found").
Proof. reflexivity. Qed.

(** C6: a target whose location does not exist should make [get_target_info]
    raise a [PathException]; for the remote bundle of [Fixtures] and the
    subpath [missing], which is in neither the store nor the archive, the
    existence check is skipped and the call ends in a [KeyError]. *)
Theorem get_target_info_remote_missing (depth : Z) :
  _get_normalized_target_path Fixtures.os Fixtures.blob (mkBundleTarget "0x1" "missing")
  = Ok (Fixtures.blob ++ "/missing")
  /\ FileSystems_exists Fixtures.remote (Fixtures.blob ++ "/missing") = false
  /\ get_target_info parse_azure_url Fixtures.remote Fixtures.os Fixtures.blob
                     (mkBundleTarget "0x1" "missing") depth
     = Raise (KeyError "missing").
Proof.
  split; [reflexivity|]. split; [reflexivity|].
  unfold get_target_info.
  change (_get_normalized_target_path Fixtures.os Fixtures.blob
            (mkBundleTarget "0x1" "missing"))
    with (@Ok string (Fixtures.blob ++ "/missing")).
  cbn [bind].
  change (PyStr.startswith (Fixtures.blob ++ "/missing") azfs) with true.
  cbn [negb andb]. unfold _compute_target_info.
  erewrite bind_Raise; [reflexivity|].
  destruct (Z.to_nat depth); cbn [local_at];
    change (PyStr.startswith (Fixtures.blob ++ "/missing") azfs) with true;
    cbv iota;
    now apply (beam_at_missing_entry parse_azure_url Fixtures.remote
                 (Fixtures.blob ++ "/missing") "0x1" Fixtures.blob "missing"
                 Fixtures.complex).
Qed.

(** C2: the contents of a synthesized directory should be its immediate
    children, each entry under exactly one directory, none left out.  On the
    archive of [Fixtures] the directory [a/] has the one immediate child
    [a/b/], but its node lists [a/] itself, [a/b/] and the file of [a/b/];
    and the node of [a/b/] lists [a/b/] itself and leaves its only child
    [a/b/file.txt] out. *)
Theorem listing_is_not_immediate_children :
  immediate_children Fixtures.complex "a/" = ["a/b/"]
  /\ child_names (_compute_target_info_beam parse_azure_url Fixtures.remote
                                            (Fixtures.blob ++ "/a/") 1)
     = Some ["a/"; "a/b/"; "file.txt"]
  /\ immediate_children Fixtures.complex "a/b/" = ["a/b/file.txt"]
  /\ child_names (_compute_target_info_beam parse_azure_url Fixtures.remote
                                            (Fixtures.blob ++ "/a/b/") 1)
     = Some ["a/b/"]
  /\ child_names (_compute_target_info_beam parse_azure_url Fixtures.remote
                                            Fixtures.blob 1)
     = Some ["a/"; "a/b/"; "file.txt"; "c/"; "c/d/"; "c/d/e/"; "file.txt"].
Proof. repeat split. Qed.

(** ** The streaming reader *)

Section Streaming.

Import StreamingZip.
Local Open Scope list_scope.

Context {D : Decompressor}.

Lemma feed_app (s : dstate) (a b : bytes) :
  feed s (a ++ b)
  = (fst (feed (fst (feed s a)) b), snd (feed s a) ++ snd (feed (fst (feed s a)) b)).
Proof.
  revert s. induction a as [|x a IH]; intro s; cbn [feed app].
  - cbn. now destruct (feed s b).
  - destruct (dstep s x) as [s1 o1]. rewrite IH.
    destruct (feed s1 a) as [s2 o2]. cbn.
    destruct (feed s2 b) as [s3 o3]. cbn. now rewrite app_assoc.
Qed.

Lemma firstn_add {A} (p k : nat) (l : list A) :
  firstn (p + k) l = firstn p l ++ firstn k (skipn p l).
Proof.
  revert l. induction p as [|p IH]; intros [|x l]; cbn; try reflexivity.
  - now rewrite firstn_nil.
  - now rewrite IH.
Qed.

Lemma firstn_own_length {A} (w : nat) (l : list A) :
  firstn (List.length (firstn w l)) l = firstn w l.
Proof.
  revert l. induction w as [|w IH]; intros [|x l]; cbn; try reflexivity.
  now rewrite IH.
Qed.

Lemma consistent_open (size : nat) : consistent size (open_entry size) [].
Proof. repeat split; cbn; lia. Qed.

(** One read, whatever it finds: the chunk at hand goes through the decoder
    the handle carries. *)
Lemma step_consume (h : handle) (n : nat) :
  step h (Consume n)
  = (mkHandle (source h) (position h + List.length (next_chunk h n))
              (compress_left h - List.length (next_chunk h n))
              (fst (feed (decoder h) (next_chunk h n))),
     snd (feed (decoder h) (next_chunk h n))).
Proof.
  assert (Same : forall h0 : handle,
             h0 = mkHandle (source h0) (position h0 + 0) (compress_left h0 - 0)
                           (decoder h0)).
  { intros [s p c d]. cbn [source position compress_left decoder].
    now rewrite Nat.add_0_r, Nat.sub_0_r. }
  unfold step, _read1, next_chunk.
  destruct (Nat.min n (compress_left h)) as [|w].
  - rewrite firstn_0. cbn [feed fst snd List.length]. now rewrite <- Same.
  - generalize (firstn (S w) (skipn (position h) (source h))). intros [|c chunk].
    + cbn [feed fst snd List.length]. now rewrite <- Same.
    + now destruct (feed (decoder h) (c :: chunk)).
Qed.

Lemma next_chunk_length (h : handle) (n : nat) :
  List.length (next_chunk h n)
  = Nat.min (Nat.min n (compress_left h)) (List.length (source h) - position h).
Proof. unfold next_chunk. now rewrite length_firstn, length_skipn. Qed.

Lemma step_source (h : handle) (ev : event) :
  source (fst (step h ev))
  = source h ++ match ev with Produce bs => bs | Consume _ => [] end.
Proof.
  destruct ev as [bs|n]; [reflexivity|].
  rewrite step_consume. cbn [fst source]. now rewrite app_nil_r.
Qed.

Lemma step_consistent (size : nat) (h : handle) (out : bytes) (ev : event) :
  consistent size h out ->
  consistent size (fst (step h ev)) (out ++ snd (step h ev)).
Proof.
  intros (Le & Sz & F). destruct ev as [bs|n].
  - cbn [step fst snd]. rewrite app_nil_r.
    repeat split; cbn [write source position compress_left decoder].
    + rewrite length_app. lia.
    + exact Sz.
    + rewrite firstn_app.
      replace (position h - List.length (source h)) with 0 by lia.
      rewrite firstn_0, app_nil_r. exact F.
  - rewrite step_consume. cbn [fst snd].
    pose proof (next_chunk_length h n) as L.
    repeat split; cbn [source position compress_left decoder].
    + lia.
    + lia.
    + rewrite firstn_add.
      replace (firstn (List.length (next_chunk h n)) (skipn (position h) (source h)))
        with (next_chunk h n) by (unfold next_chunk; now rewrite firstn_own_length).
      rewrite feed_app, F. reflexivity.
Qed.

Lemma run_consistent (size : nat) (evs : list event) :
  forall h out,
    consistent size h out ->
    consistent size (fst (run h evs)) (out ++ snd (run h evs))
    /\ source (fst (run h evs)) = source h ++ produced evs.
Proof.
  induction evs as [|ev evs IH]; intros h out Hc; cbn [run produced flat_map].
  - cbn. now rewrite !app_nil_r.
  - destruct (step h ev) as [h1 o1] eqn:S1.
    pose proof (step_consistent size h out ev Hc) as H1.
    pose proof (step_source h ev) as Hs.
    rewrite S1 in H1, Hs. cbn [fst snd] in H1, Hs.
    destruct (IH h1 (out ++ o1) H1) as [H2 Hs2].
    destruct (run h1 evs) as [h2 o2]. cbn [fst snd] in *.
    split.
    + now rewrite app_assoc.
    + rewrite Hs2, Hs, <- app_assoc. reflexivity.
Qed.

Lemma run_app (h : handle) (e1 e2 : list event) :
  run h (e1 ++ e2)
  = (fst (run (fst (run h e1)) e2), snd (run h e1) ++ snd (run (fst (run h e1)) e2)).
Proof.
  revert h. induction e1 as [|ev e1 IH]; intro h; cbn [run app].
  - cbn. now destruct (run h e2).
  - destruct (step h ev) as [h1 o1]. rewrite IH.
    destruct (run h1 e1) as [h2 o2]. cbn [fst snd].
    destruct (run h2 e2) as [h3 o3]. cbn [fst snd]. now rewrite app_assoc.
Qed.

(** Reads of one byte take what is there, one byte each. *)
Lemma run_ones (k : nat) :
  forall h,
    position h + k <= List.length (source h) -> k <= compress_left h ->
    position (fst (run h (repeat (Consume 1) k))) = position h + k
    /\ compress_left (fst (run h (repeat (Consume 1) k))) = compress_left h - k
    /\ source (fst (run h (repeat (Consume 1) k))) = source h.
Proof.
  induction k as [|k IH]; intros h Hp Hc; cbn [repeat run].
  - cbn. repeat split; lia.
  - pose proof (next_chunk_length h 1) as L.
    rewrite step_consume.
    set (h1 := mkHandle _ _ _ _).
    specialize (IH h1).
    destruct (run h1 (repeat (Consume 1) k)) as [h2 o2]. cbn [fst snd] in *.
    subst h1. cbn [source position compress_left decoder] in IH.
    destruct IH as (P & C & S); [lia|lia|].
    rewrite P, C, S. repeat split; lia.
Qed.

Lemma run_trickle (chunks : list bytes) :
  forall h,
    position h = List.length (source h) ->
    List.length (concat chunks) <= compress_left h ->
    compress_left (fst (run h (trickle chunks)))
    = compress_left h - List.length (concat chunks)
    /\ position (fst (run h (trickle chunks)))
       = List.length (source (fst (run h (trickle chunks)))).
Proof.
  induction chunks as [|c chunks IH]; intros h Hp Hc.
  - cbn. split; lia.
  - cbn [concat] in Hc. rewrite length_app in Hc.
    unfold trickle. cbn [flat_map]. fold (trickle chunks).
    change ((Produce c :: repeat (Consume 1) (List.length c)) ++ trickle chunks)
      with (Produce c :: (repeat (Consume 1) (List.length c) ++ trickle chunks)).
    cbn [run step]. rewrite run_app. cbn [fst snd].
    destruct (run_ones (List.length c) (write h c)) as (P & C & S).
    { cbn [write source position]. rewrite length_app. lia. }
    { cbn [write compress_left]. lia. }
    cbn [write source position compress_left] in P, C, S.
    set (h1 := fst (run (write h c) (repeat (Consume 1) (List.length c)))) in *.
    destruct (IH h1) as (C2 & P2).
    { rewrite P, S, length_app. lia. }
    { lia. }
    destruct (run h1 (trickle chunks)) as [h2 o2]. cbn [fst snd] in *.
    cbn [concat]. rewrite length_app. split; [lia|exact P2].
Qed.

End Streaming.

(** C7: for every compression method and every entry body, reading the
    entry through a handle whose source is appended to while it is read, the
    decoder state carried from read to read, gives the bytes that
    decompressing the complete body at once gives: at any moment what has
    been read is the decompression of a prefix of the body, once the body is
    consumed it is the whole, and writing the body in chunks of any sizes and
    reading each back byte by byte consumes it.  The 11 bytes of
    "hello world", stored, fed one byte at a time, come back as they are. *)
Theorem streaming_read_equals_batch (D : StreamingZip.Decompressor)
        (body : StreamingZip.bytes) :
  (forall evs,
      StreamingZip.produced evs = body ->
      StreamingZip.compress_left
        (fst (StreamingZip.run (StreamingZip.open_entry (List.length body)) evs)) = 0 ->
      snd (StreamingZip.run (StreamingZip.open_entry (List.length body)) evs)
      = StreamingZip.decompress body)
  /\ (forall evs,
         StreamingZip.produced evs = body ->
         exists k,
           snd (StreamingZip.run (StreamingZip.open_entry (List.length body)) evs)
           = StreamingZip.decompress (firstn k body))
  /\ (forall chunks,
         concat chunks = body ->
         snd (StreamingZip.run (StreamingZip.open_entry (List.length body))
                               (StreamingZip.trickle chunks))
         = StreamingZip.decompress body)
  /\ snd (@StreamingZip.run StreamingZip.Stored (StreamingZip.open_entry 11)
            (StreamingZip.trickle (map (fun b => [b]) StreamingZip.hello_world)))
     = StreamingZip.hello_world.
Proof.
  assert (Prefix : forall evs,
             StreamingZip.produced evs = body ->
             let h := fst (StreamingZip.run
                             (StreamingZip.open_entry (List.length body)) evs) in
             StreamingZip.position h + StreamingZip.compress_left h = List.length body
             /\ snd (StreamingZip.run (StreamingZip.open_entry (List.length body)) evs)
                = StreamingZip.decompress (firstn (StreamingZip.position h) body)).
  { intros evs P h.
    destruct (run_consistent (List.length body) evs _ _
                             (consistent_open (List.length body)))
      as [(_ & Sz & F) Src].
    fold h in Sz, F, Src. cbn in Src. rewrite P in Src.
    split; [exact Sz|].
    unfold StreamingZip.decompress. rewrite Src in F. rewrite F. reflexivity. }
  assert (Whole : forall evs,
             StreamingZip.produced evs = body ->
             StreamingZip.compress_left
               (fst (StreamingZip.run
                       (StreamingZip.open_entry (List.length body)) evs)) = 0 ->
             snd (StreamingZip.run (StreamingZip.open_entry (List.length body)) evs)
             = StreamingZip.decompress body).
  { intros evs P Z. destruct (Prefix evs P) as [Sz ->].
    rewrite Z, Nat.add_0_r in Sz. now rewrite Sz, firstn_all. }
  split; [exact Whole|]. split; [|split].
  - intros evs P. eexists. apply (Prefix evs P).
  - intros chunks C. apply Whole.
    + rewrite <- C. clear. induction chunks as [|c chunks IH]; [reflexivity|].
      unfold StreamingZip.trickle, StreamingZip.produced in *.
      cbn [flat_map concat app] in *. rewrite flat_map_app, IH. f_equal.
      clear. induction (List.length c); [reflexivity|assumption].
    + destruct (run_trickle chunks (StreamingZip.open_entry (List.length body)))
        as [Z _]; [reflexivity|cbn; rewrite C; lia|].
      rewrite Z. cbn. rewrite C. lia.
  - reflexivity.
Qed.

Lemma streaming_read_equals_batch_witness :
  snd (@StreamingZip.run StreamingZip.Stored
         (StreamingZip.open_entry (List.length StreamingZip.hello_world))
         (StreamingZip.partial_schedule StreamingZip.hello_world))
  = @StreamingZip.decompress StreamingZip.Stored StreamingZip.hello_world
  /\ string_of_list_byte
       (@StreamingZip.decompress StreamingZip.Stored StreamingZip.hello_world)
     = "hello world"
  /\ snd (@StreamingZip.run StreamingZip.DeflateStored
            (StreamingZip.open_entry (List.length StreamingZip.hello_deflated))
            (StreamingZip.trickle (map (fun b => [b]) StreamingZip.hello_deflated)))
     = @StreamingZip.decompress StreamingZip.DeflateStored StreamingZip.hello_deflated
  /\ string_of_list_byte
       (@StreamingZip.decompress StreamingZip.DeflateStored StreamingZip.hello_deflated)
     = "hello world".
Proof.
  split; [|split; [reflexivity|split; [|reflexivity]]].
  - apply (proj1 (streaming_read_equals_batch StreamingZip.Stored
                    StreamingZip.hello_world)
             (StreamingZip.partial_schedule StreamingZip.hello_world)
             eq_refl eq_refl).
  - apply (proj1 (proj2 (proj2 (streaming_read_equals_batch
                                  StreamingZip.DeflateStored
                                  StreamingZip.hello_deflated)))
             (map (fun b => [b]) StreamingZip.hello_deflated) eq_refl).
Defined.

(** * Further properties of the code *)

(** ** Strings *)

Lemma prefix_app (a b : string) : String.prefix a (a ++ b) = true.
Proof.
  induction a as [|c a IH]; cbn.
  - now destruct b.
  - destruct (ascii_dec c c) as [_|N]; [exact IH|now destruct N].
Qed.

Lemma prefix_refl (a : string) : String.prefix a a = true.
Proof.
  induction a as [|c a IH]; cbn; [reflexivity|].
  destruct (ascii_dec c c) as [_|N]; [exact IH|now destruct N].
Qed.

Lemma prefix_trans (a b c : string) :
  String.prefix a b = true -> String.prefix b c = true -> String.prefix a c = true.
Proof.
  revert b c. induction a as [|x a IH]; intros b c H1 H2.
  - now destruct c.
  - destruct b as [|y b]; [discriminate|]. destruct c as [|z c]; [discriminate|].
    cbn in *.
    destruct (ascii_dec x y) as [->|]; [|discriminate].
    destruct (ascii_dec y z) as [->|]; [|discriminate].
    destruct (ascii_dec z z) as [_|N]; [|now destruct N].
    eapply IH; eassumption.
Qed.

Lemma append_assoc (a b c : string) : ((a ++ b) ++ c = a ++ (b ++ c))%string.
Proof. induction a as [|x a IH]; cbn; [reflexivity|now rewrite IH]. Qed.

(** ** [_get_target_path] *)

(** X1: the subpath is attached behind the bundle path, never in its place:
    whatever the subpath is, an absolute one included, the result starts
    with the bundle path, and the empty subpath gives the bundle path
    itself. *)
Theorem _get_target_path_keeps_root (bundle_path path : string) :
  PyStr.startswith (_get_target_path bundle_path path) bundle_path = true
  /\ _get_target_path bundle_path "" = bundle_path
  /\ (path <> "" -> _get_target_path bundle_path path = bundle_path ++ "/" ++ path).
Proof.
  unfold _get_target_path, PyStr.startswith. split; [|split].
  - destruct (negb (path =? "")).
    + apply prefix_app.
    + apply prefix_refl.
  - reflexivity.
  - intro N. destruct (path =? "") eqn:E; [|reflexivity].
    apply String.eqb_eq in E. contradiction.
Qed.

Lemma _get_target_path_keeps_root_witness :
  _get_target_path "/store/bundle" "/etc/passwd" = "/store/bundle//etc/passwd".
Proof.
  apply (proj2 (proj2 (_get_target_path_keeps_root "/store/bundle" "/etc/passwd"))).
  discriminate.
Defined.

(** ** The resolver on remote roots *)

Lemma target_path_startswith (bundle_path path pre : string) :
  PyStr.startswith bundle_path pre = true ->
  PyStr.startswith (_get_target_path bundle_path path) pre = true.
Proof.
  intro H. unfold PyStr.startswith in *.
  eapply prefix_trans; [exact H|].
  apply (proj1 (_get_target_path_keeps_root bundle_path path)).
Qed.

(** X2: for a bundle kept in the blob store ([azfs://]) the resolver never
    refuses: the subpath is attached as it is written, [..] included, with
    no normalization, and the operating system is not asked anything. *)
Theorem remote_root_never_refused
        (os : OS) (bundle_path : string) (target : BundleTarget) :
  PyStr.startswith bundle_path azfs = true ->
  _get_normalized_target_path os bundle_path target
  = Ok (_get_target_path bundle_path (subpath target)).
Proof.
  intro A. unfold _get_normalized_target_path. rewrite A.
  rewrite (target_path_startswith bundle_path (subpath target) azfs A).
  cbn [negb].
  now rewrite (proj1 (_get_target_path_keeps_root bundle_path (subpath target))).
Qed.

Lemma remote_root_never_refused_witness :
  _get_normalized_target_path Fixtures.os Fixtures.blob
                              (mkBundleTarget "0x1" "../../0x2/contents.zip")
  = Ok (Fixtures.blob ++ "/../../0x2/contents.zip").
Proof.
  apply (remote_root_never_refused Fixtures.os Fixtures.blob
           (mkBundleTarget "0x1" "../../0x2/contents.zip")).
  reflexivity.
Defined.

(** X3: what [get_target_path] returns has the real root as a textual
    prefix and is not a symbolic link. *)
Theorem get_target_path_postcondition
        (os : OS) (bundle_path : string) (target : BundleTarget) (p : string) :
  get_target_path os bundle_path target = Ok p ->
  PyStr.startswith p (real_root os bundle_path) = true
  /\ islink os p = false
  /\ _get_normalized_target_path os bundle_path target = Ok p.
Proof.
  intro H.
  destruct (_get_normalized_target_path os bundle_path target) as [q|e] eqn:N.
  - rewrite (get_target_path_ok os bundle_path target q N) in H.
    destruct (islink os q) eqn:I; [discriminate|].
    injection H as <-.
    split; [now apply (normalized_startswith_root os bundle_path target)|].
    now split.
  - unfold get_target_path in H. rewrite N in H. discriminate.
Qed.

Lemma get_target_path_postcondition_witness :
  PyStr.startswith "/store/bundle/d/g" (real_root Fixtures.os "/store/bundle") = true
  /\ islink Fixtures.os "/store/bundle/d/g" = false
  /\ _get_normalized_target_path Fixtures.os "/store/bundle"
       (mkBundleTarget "0xab" "d/./g") = Ok "/store/bundle/d/g".
Proof.
  apply (get_target_path_postcondition Fixtures.os "/store/bundle"
           (mkBundleTarget "0xab" "d/./g") "/store/bundle/d/g").
  reflexivity.
Defined.

(** ** [get_target_info] *)

(** X4: for a bundle kept in the blob store, [get_target_info] is the
    archive-backed indexer on the locator with the subpath attached, the
    target recorded at the root; neither the existence check nor the
    operating system takes part, so the answer is the same on every
    machine. *)
Theorem get_target_info_remote
        (parse : string -> result azure_parts) (store : BlobStore) (os os' : OS)
        (bundle_path : string) (target : BundleTarget) (depth : Z) :
  PyStr.startswith bundle_path azfs = true ->
  get_target_info parse store os bundle_path target depth
  = (info <- _compute_target_info_beam
               parse store (_get_target_path bundle_path (subpath target)) depth ;;
     Ok (set_resolved_target info target))
  /\ get_target_info parse store os bundle_path target depth
     = get_target_info parse store os' bundle_path target depth.
Proof.
  intro A.
  assert (E : forall o,
             get_target_info parse store o bundle_path target depth
             = (info <- _compute_target_info_beam
                          parse store (_get_target_path bundle_path (subpath target))
                          depth ;;
                Ok (set_resolved_target info target))).
  { intro o. unfold get_target_info.
    rewrite (remote_root_never_refused o bundle_path target A). cbn [bind].
    pose proof (target_path_startswith bundle_path (subpath target) azfs A) as S.
    rewrite S. cbn [negb andb].
    unfold _compute_target_info, _compute_target_info_beam.
    destruct (Z.to_nat depth); cbn [local_at]; rewrite S; reflexivity. }
  split; [apply E|]. now rewrite (E os), (E os').
Qed.

Lemma get_target_info_remote_witness :
  get_target_info parse_azure_url Fixtures.remote Fixtures.os Fixtures.blob
                  (mkBundleTarget "0x1" "file.txt") 1
  = get_target_info parse_azure_url Fixtures.remote
                    (Posix.os_of (Posix.mkFs (Posix.Dir 0 0 []) [])) Fixtures.blob
                    (mkBundleTarget "0x1" "file.txt") 1.
Proof.
  apply (proj2 (get_target_info_remote
                  parse_azure_url Fixtures.remote Fixtures.os
                  (Posix.os_of (Posix.mkFs (Posix.Dir 0 0 []) [])) Fixtures.blob
                  (mkBundleTarget "0x1" "file.txt") 1 eq_refl)).
Defined.

(** X5: a local location that is neither a symbolic link nor there is
    refused with a [PathException] before anything is indexed; its message
    puts the bundle identifier where the path is announced and the subpath
    where the bundle is. *)
Theorem get_target_info_not_found
        (parse : string -> result azure_parts) (store : BlobStore) (os : OS)
        (bundle_path : string) (target : BundleTarget) (depth : Z) (p : string) :
  _get_normalized_target_path os bundle_path target = Ok p ->
  PyStr.startswith p azfs = false ->
  islink os p = false ->
  FileSystems_exists store p = false ->
  get_target_info parse store os bundle_path target depth
  = Raise (PathException ("Path " ++ bundle_uuid target ++ " in bundle "
                          ++ subpath target ++ " not found")).
Proof. apply get_target_info_local_not_found. Qed.

Lemma get_target_info_not_found_witness :
  get_target_info parse_azure_url Fixtures.local Fixtures.os "/store/bundle"
                  (mkBundleTarget "0xab" "d/nope") 2
  = Raise (PathException "Path 0xab in bundle d/nope not found").
Proof.
  apply (get_target_info_not_found parse_azure_url Fixtures.local Fixtures.os
           "/store/bundle" (mkBundleTarget "0xab" "d/nope") 2
           "/store/bundle/d/nope"); reflexivity.
Defined.

(** ** [BundleTarget] *)

(** X6: [__eq__] holds of two targets exactly when both fields agree. *)
Theorem BundleTarget_eq_spec (a b : BundleTarget) :
  BundleTarget_eq a b = true <-> a = b.
Proof.
  unfold BundleTarget_eq. destruct a as [u s], b as [u' s']. cbn.
  rewrite andb_true_iff, !String.eqb_eq. split.
  - now intros [-> ->].
  - intro E. injection E as -> ->. now split.
Qed.

Lemma append_colon_injective (u u' s s' : string) :
  contains_char ":"%char u = false -> contains_char ":"%char u' = false ->
  (u ++ ":" ++ s = u' ++ ":" ++ s')%string -> u = u' /\ s = s'.
Proof.
  revert u'. induction u as [|c u IH]; intros [|c' u'] Hu Hu' E; cbn in *.
  - injection E as ->. now split.
  - injection E as <- _. cbn in Hu'. discriminate.
  - injection E as -> _. discriminate.
  - injection E as -> E. apply orb_false_iff in Hu, Hu'.
    destruct (IH u' (proj2 Hu) (proj2 Hu') E) as [-> ->]. now split.
Qed.

(** X7: [__str__] tells targets apart as long as bundle identifiers hold no
    colon; with colons in them it does not. *)
Theorem BundleTarget_str_injective (a b : BundleTarget) :
  (contains_char ":"%char (bundle_uuid a) = false ->
   contains_char ":"%char (bundle_uuid b) = false ->
   BundleTarget_str a = BundleTarget_str b -> a = b)
  /\ BundleTarget_str (mkBundleTarget "0x1:a" "b")
     = BundleTarget_str (mkBundleTarget "0x1" "a:b").
Proof.
  split; [|reflexivity].
  destruct a as [u s], b as [u' s']. unfold BundleTarget_str. cbn.
  intros Hu Hu' E.
  destruct (append_colon_injective u u' s s' Hu Hu' E) as [-> ->]. reflexivity.
Qed.

Lemma BundleTarget_str_injective_witness :
  mkBundleTarget "0x1" "a:b" = mkBundleTarget "0x1" "a:b".
Proof.
  apply (proj1 (BundleTarget_str_injective (mkBundleTarget "0x1" "a:b")
                                           (mkBundleTarget "0x1" "a:b")));
    reflexivity.
Defined.

(** ** Invariants of the trees the indexers build *)

Lemma land_511_bounds (a : Z) :
  ((0 <=? Z.land a 511) && (Z.land a 511 <=? 511))%Z = true.
Proof.
  change 511%Z with (Z.ones 9). rewrite Z.land_ones by lia.
  pose proof (Z.mod_pos_bound a (2 ^ 9) ltac:(lia)) as B.
  change (Z.ones 9) with 511%Z. change (2 ^ 9)%Z with 512%Z in *.
  apply andb_true_iff. split; [apply Z.leb_le|apply Z.leb_le]; lia.
Qed.

Lemma all_nodes_leaf (P : node -> bool) (n : node) :
  node_contents n = None -> all_nodes P n = P n.
Proof. destruct n; cbn. intros ->. apply andb_true_r. Qed.

Lemma all_nodes_inner (P : node -> bool) (n : node) (cs : list node) :
  node_contents n = Some cs -> all_nodes P n = P n && forallb (all_nodes P) cs.
Proof. destruct n; cbn. now intros ->. Qed.

Lemma inner_node_ok_masked
      (nm : string) (ty : option kind) (sz m : Z) (lk : option string)
      (cs : option (list node)) :
  inner_node_ok (mkNode nm ty sz (Z.land m 511) lk cs None None None)
  = match ty, lk with
    | Some link, Some _ => true
    | Some link, None => false
    | _, Some _ => false
    | _, None => true
    end.
Proof.
  unfold inner_node_ok.
  cbn [node_perm node_type node_link node_resolved_target].
  rewrite land_511_bounds, andb_true_r. reflexivity.
Qed.

Section TreeInvariants.

Variable parse : string -> result azure_parts.
Variable store : BlobStore.
Variable os : OS.

Lemma beam_at_inner_ok (budget : nat) :
  forall path n, beam_at parse store budget path = Ok n ->
                 all_nodes inner_node_ok n = true.
Proof.
  induction budget as [|b IH]; intros path n H; cbn [beam_at] in H.
  - bind_inv H. destruct a as [[uuid zp] sub].
    destruct (match sub with Some s => s =? "/images/" | None => false end);
      [discriminate|].
    destruct zp as [zp|].
    + destruct (negb (truthy sub)).
      * repeat bind_inv H. injection Ha4 as <-. injection H as <-. reflexivity.
      * bind_inv H. bind_inv H. destruct (negb (is_dir a0)).
        -- injection H as <-. reflexivity.
        -- repeat bind_inv H. injection Ha5 as <-. injection H as <-. reflexivity.
    + bind_inv H. injection H as <-. reflexivity.
  - bind_inv H. destruct a as [[uuid zp] sub].
    destruct (match sub with Some s => s =? "/images/" | None => false end);
      [discriminate|].
    assert (K : forall sel cs,
               mapM (fun z => if negb (is_dir z) then Ok (beam_file_child z)
                              else beam_at parse store b (beam_child_path uuid z)) sel
               = Ok cs -> forallb (all_nodes inner_node_ok) cs = true).
    { intros sel cs. apply mapM_forallb. intros z y _.
      unfold beam_file_child. destruct (is_dir z); cbn [negb]; intro E.
      - now apply IH in E.
      - injection E as <-. reflexivity. }
    destruct zp as [zp|].
    + destruct (negb (truthy sub)).
      * repeat bind_inv H. injection H as <-. bind_inv Ha4. injection Ha4 as <-.
        cbn. eapply K; eassumption.
      * bind_inv H. bind_inv H. destruct (negb (is_dir a0)).
        -- injection H as <-. reflexivity.
        -- repeat bind_inv H. injection H as <-. bind_inv Ha5. injection Ha5 as <-.
           cbn. eapply K; eassumption.
    + bind_inv H. injection H as <-. reflexivity.
Qed.

Lemma local_at_inner_ok (budget : nat) :
  forall path n, local_at parse store os budget path = Ok n ->
                 all_nodes inner_node_ok n = true.
Proof.
  induction budget as [|b IH]; intros path n H; cbn [local_at] in H;
    (destruct (PyStr.startswith path azfs);
     [now apply beam_at_inner_ok in H|]);
    bind_inv H;
    (destruct (islink os path);
     [bind_inv H; injection H as <-;
      rewrite all_nodes_leaf by reflexivity; now rewrite inner_node_ok_masked|]);
    (destruct (isfile os path);
     [injection H as <-;
      rewrite all_nodes_leaf by reflexivity; now rewrite inner_node_ok_masked|]);
    (destruct (isdir os path);
     [|injection H as <-;
       rewrite all_nodes_leaf by reflexivity; now rewrite inner_node_ok_masked]).
  - injection H as <-.
    rewrite all_nodes_leaf by reflexivity. now rewrite inner_node_ok_masked.
  - bind_inv H. bind_inv H. injection H as <-.
    rewrite (all_nodes_inner _ _ a1) by reflexivity.
    rewrite inner_node_ok_masked. cbn [andb].
    eapply mapM_forallb; [|eassumption].
    intros x y _ E. now apply IH in E.
Qed.

End TreeInvariants.

(** X8: an index is a tree whose nodes all have permission bits within
    [0o777], a link target exactly when they are of type [link], and no
    [resolved_target]; the target asked for is then recorded at the root,
    and only there. *)
Theorem index_nodes_well_formed
        (parse : string -> result azure_parts) (store : BlobStore) (os : OS)
        (bundle_path : string) (target : BundleTarget) (depth : Z) (n : node) :
  get_target_info parse store os bundle_path target depth = Ok n ->
  exists info,
    n = set_resolved_target info target
    /\ all_nodes inner_node_ok info = true
    /\ node_resolved_target n = Some target.
Proof.
  intro H. unfold get_target_info in H. bind_inv H.
  destruct (_ && _) in H; [discriminate|].
  bind_inv H. injection H as <-. exists a0.
  split; [reflexivity|]. split; [|reflexivity].
  eapply local_at_inner_ok. exact Ha0.
Qed.

Lemma index_nodes_well_formed_witness :
  exists info,
    all_nodes inner_node_ok info = true
    /\ get_target_info parse_azure_url Fixtures.local Fixtures.os "/store/bundle"
                       (mkBundleTarget "0xab" "") 2
       = Ok (set_resolved_target info (mkBundleTarget "0xab" "")).
Proof.
  destruct (index_nodes_well_formed
              parse_azure_url Fixtures.local Fixtures.os "/store/bundle"
              (mkBundleTarget "0xab" "") 2 _ eq_refl) as (info & E & W & _).
  exists info. split; [exact W|]. now rewrite <- E.
Defined.

(** ** Indexing at two depths *)

Lemma mapM_map_ok {A B} (f g : A -> result B) (h : B -> B) (l : list A) :
  (forall x y, In x l -> f x = Ok y -> g x = Ok (h y)) ->
  forall ys, mapM f l = Ok ys -> mapM g l = Ok (map h ys).
Proof.
  induction l as [|x xs IH]; cbn [mapM]; intros Hf ys H.
  - injection H as <-. reflexivity.
  - bind_inv H. bind_inv H. injection H as <-.
    rewrite (Hf x a (or_introl eq_refl) Ha). cbn [bind].
    rewrite (IH (fun x' y' Hin => Hf x' y' (or_intror Hin)) _ Ha0). reflexivity.
Qed.

Lemma truncate_leaf (k : nat) (n : node) :
  node_contents n = None -> truncate k n = n.
Proof. destruct n, k; cbn; now intros ->. Qed.

Ltac bind_step H :=
  let a := fresh "a" in
  let Ha := fresh "Ha" in
  apply bind_Ok in H; destruct H as (a & Ha & H);
  rewrite ?Ha; cbn [bind].

Section Truncation.

Variable parse : string -> result azure_parts.
Variable store : BlobStore.
Variable os : OS.

Lemma beam_at_truncate (k : nat) :
  forall d path n,
    k <= d ->
    beam_at parse store d path = Ok n ->
    beam_at parse store k path = Ok (truncate k n).
Proof.
  induction k as [|k IH]; intros [|d] path n Le H; try lia;
    cbn [beam_at] in H |- *;
    bind_step H; destruct a as [[uuid zp] sub];
    (destruct (match sub with Some s => s =? "/images/" | None => false end);
     [discriminate|]);
    (destruct zp as [zp|];
     [|bind_step H; injection H as <-; now rewrite truncate_leaf]);
    (destruct (negb (truthy sub));
     [|bind_step H; bind_step H;
       (destruct (negb (is_dir a0));
        [injection H as <-; now rewrite truncate_leaf|])]);
    repeat bind_step H; injection H as <-; try reflexivity;
    match goal with
    | Hc : bind (mapM _ _) _ = Ok _ |- _ =>
        apply bind_Ok in Hc; destruct Hc as (cs & M & E); injection E as <-
    end;
    (erewrite mapM_map_ok with (h := truncate k); [reflexivity| |exact M]);
    intros z y _; cbv beta; (destruct (negb (is_dir z)); intro E;
                   [injection E as <-; now rewrite truncate_leaf
                   |apply (IH d); [lia|exact E]]).
Qed.

Lemma local_at_truncate (k : nat) :
  forall d path n,
    k <= d ->
    local_at parse store os d path = Ok n ->
    local_at parse store os k path = Ok (truncate k n).
Proof.
  induction k as [|k IH]; intros [|d] path n Le H; try lia;
    cbn [local_at] in H |- *;
    (destruct (PyStr.startswith path azfs);
     [now apply (beam_at_truncate _ _ _ _ Le)|]);
    bind_step H;
    (destruct (islink os path);
     [bind_step H; injection H as <-; now rewrite truncate_leaf|]);
    (destruct (isfile os path); [injection H as <-; now rewrite truncate_leaf|]);
    (destruct (isdir os path); [|injection H as <-; now rewrite truncate_leaf]).
  - injection H as <-. reflexivity.
  - repeat bind_step H. injection H as <-. reflexivity.
  - bind_step H.
    apply bind_Ok in H. destruct H as (cs & M & H). injection H as <-.
    erewrite mapM_map_ok with (h := truncate k); [reflexivity| |exact M].
    intros x y _ E. cbv beta in *. apply (IH d); [lia|exact E].
Qed.

Lemma truncate_set_resolved_target (k : nat) (n : node) (t : BundleTarget) :
  truncate k (set_resolved_target n t) = set_resolved_target (truncate k n) t.
Proof. destruct k; reflexivity. Qed.

End Truncation.

(** X9: indexing less deep gives the deeper index cut off: when a target is
    indexed at some depth, indexing it at any smaller depth succeeds as well
    and returns the same tree without the levels below that depth. *)
Theorem shallower_index_is_truncation
        (parse : string -> result azure_parts) (store : BlobStore) (os : OS)
        (bundle_path : string) (target : BundleTarget) (depth depth' : Z) (n : node) :
  (depth' <= depth)%Z ->
  get_target_info parse store os bundle_path target depth = Ok n ->
  get_target_info parse store os bundle_path target depth'
  = Ok (truncate (Z.to_nat depth') n).
Proof.
  intros Le H. unfold get_target_info in *. bind_step H.
  destruct (_ && _); [discriminate|].
  unfold _compute_target_info in *. bind_step H. injection H as <-.
  rewrite (local_at_truncate parse store os (Z.to_nat depth') (Z.to_nat depth) a a0)
    by (lia || assumption).
  cbn [bind]. now rewrite truncate_set_resolved_target.
Qed.

Lemma shallower_index_is_truncation_witness :
  exists n,
    get_target_info parse_azure_url Fixtures.local Fixtures.os "/store/bundle"
                    (mkBundleTarget "0xab" "") 2 = Ok n
    /\ get_target_info parse_azure_url Fixtures.local Fixtures.os "/store/bundle"
                       (mkBundleTarget "0xab" "") 1 = Ok (truncate 1 n).
Proof.
  eexists. split; [vm_compute; reflexivity|].
  apply (shallower_index_is_truncation
           parse_azure_url Fixtures.local Fixtures.os "/store/bundle"
           (mkBundleTarget "0xab" "") 2 1); [lia|reflexivity].
Defined.

(** ** Splitting and joining paths *)

Lemma split_nonempty (c : ascii) (s : string) : PyStr.split c s <> [].
Proof.
  destruct s as [|a s]; cbn; [discriminate|].
  destruct (Ascii.eqb a c); [discriminate|].
  destruct (PyStr.split c s); discriminate.
Qed.

Lemma split_cons_other (c a : ascii) (s : string) :
  Ascii.eqb a c = false ->
  exists w ws, PyStr.split c s = w :: ws
               /\ PyStr.split c (String a s) = String a w :: ws.
Proof.
  intro N. cbn. rewrite N.
  destruct (PyStr.split c s) as [|w ws] eqn:E.
  - now destruct (split_nonempty c s).
  - now exists w, ws.
Qed.

Lemma split_app_sep (c : ascii) (a b : string) :
  PyStr.split c (a ++ String c b) = (PyStr.split c a ++ PyStr.split c b)%list.
Proof.
  induction a as [|x a IH].
  - cbn. now rewrite Ascii.eqb_refl.
  - change (String x a ++ String c b)%string with (String x (a ++ String c b)).
    cbn [PyStr.split]. destruct (Ascii.eqb x c).
    + now rewrite IH.
    + rewrite IH. destruct (PyStr.split c a) as [|w ws] eqn:E.
      * now destruct (split_nonempty c a).
      * reflexivity.
Qed.

Lemma split_free (c : ascii) (s : string) :
  contains_char c s = false -> PyStr.split c s = [s].
Proof.
  induction s as [|a s IH]; cbn; [reflexivity|].
  intro H. apply orb_false_iff in H. destruct H as [N F].
  rewrite N, (IH F). reflexivity.
Qed.



Lemma endswith_char_app (a : string) (c : ascii) :
  PyStr.endswith_char a c = true -> exists a', a = (a' ++ String c "")%string.
Proof.
  induction a as [|x a IH]; cbn; [discriminate|].
  destruct a as [|y a].
  - intro E. apply Ascii.eqb_eq in E. subst. now exists "".
  - intro E. destruct (IH E) as [a' ->]. now exists (String x a').
Qed.

Lemma startswith_char (c a : ascii) (s : string) :
  PyStr.startswith (String a s) (String c "") = Ascii.eqb a c.
Proof.
  unfold PyStr.startswith. cbn [String.prefix].
  destruct (ascii_dec c a) as [<-|N].
  - rewrite Ascii.eqb_refl. now destruct s.
  - symmetry. apply Ascii.eqb_neq. congruence.
Qed.

(** A name with no separator in it is the base name of what [join] makes
    of it. *)
Lemma basename_join (dir name : string) :
  contains_char PosixPath.sep_char name = false ->
  PosixPath.basename (PosixPath.join dir name) = name.
Proof.
  intro F. unfold PosixPath.basename, PosixPath.join.
  assert (N : PyStr.startswith name "/" = false).
  { destruct name as [|a name]; [reflexivity|].
    rewrite (startswith_char "/"). cbn [contains_char] in F.
    apply orb_false_iff in F. exact (proj1 F). }
  rewrite N.
  destruct (dir =? "") eqn:E.
  - apply String.eqb_eq in E. subst. cbn. now rewrite (split_free _ _ F).
  - cbn [orb]. destruct (PyStr.endswith_char dir PosixPath.sep_char) eqn:S.
    + destruct (endswith_char_app _ _ S) as [d ->].
      rewrite append_assoc. cbn [append].
      rewrite split_app_sep, (split_free _ _ F). apply last_last.
    + change ("/" ++ name)%string with (String PosixPath.sep_char name).
      rewrite split_app_sep, (split_free _ _ F). apply last_last.
Qed.

(** ** The local indexer on a directory *)

Lemma mapM_recover {A B} (f : A -> result B) (g : B -> A) (l : list A) :
  (forall x y, In x l -> f x = Ok y -> g y = x) ->
  forall ys, mapM f l = Ok ys -> map g ys = l.
Proof.
  induction l as [|x xs IH]; cbn [mapM]; intros Hf ys H.
  - injection H as <-. reflexivity.
  - bind_inv H. bind_inv H. injection H as <-. cbn.
    rewrite (Hf x a (or_introl eq_refl) Ha).
    now rewrite (IH (fun x' y' Hin => Hf x' y' (or_intror Hin)) _ Ha0).
Qed.

Lemma absolute_not_azfs (p : string) :
  PyStr.startswith p "/" = true -> PyStr.startswith p azfs = false.
Proof.
  destruct p as [|a p]; [discriminate|].
  rewrite (startswith_char "/"). intro E. apply Ascii.eqb_eq in E. subst.
  reflexivity.
Qed.

Lemma join_absolute (dir name : string) :
  PyStr.startswith dir "/" = true ->
  PyStr.startswith (PosixPath.join dir name) "/" = true.
Proof.
  intro A. unfold PosixPath.join.
  destruct (PyStr.startswith name "/") eqn:N; [exact N|].
  destruct dir as [|a dir]; [discriminate|].
  rewrite (startswith_char "/") in A.
  destruct (_ || _); cbn [append]; now rewrite (startswith_char "/").
Qed.

Section LocalDirectory.

Variable parse : string -> result azure_parts.
Variable store : BlobStore.
Variable os : OS.

Lemma local_at_name (budget : nat) (p : string) (y : node) :
  PyStr.startswith p azfs = false ->
  local_at parse store os budget p = Ok y ->
  node_name y = PosixPath.basename p.
Proof.
  intros A H. destruct budget; cbn [local_at] in H; rewrite A in H;
    bind_inv H;
    (destruct (islink os p); [bind_inv H; now injection H as <-|]);
    (destruct (isfile os p); [now injection H as <-|]);
    (destruct (isdir os p); [|now injection H as <-]).
  - now injection H as <-.
  - bind_inv H. bind_inv H. now injection H as <-.
Qed.

End LocalDirectory.

(** X10: when the index of a local directory has [contents], the children
    are the entries [os.listdir] gave, in that order and under those names,
    one node each. *)
Theorem directory_lists_its_entries
        (parse : string -> result azure_parts) (store : BlobStore) (os : OS)
        (path : string) (depth : Z) (names : list string) (n : node)
        (cs : list node) :
  PyStr.startswith path "/" = true ->
  listdir os path = Ok names ->
  forallb (fun name => negb (contains_char PosixPath.sep_char name)) names = true ->
  _compute_target_info parse store os path depth = Ok n ->
  node_contents n = Some cs ->
  map node_name cs = names
  /\ node_type n = Some directory
  /\ node_name n = PosixPath.basename path.
Proof.
  intros A L F H C. unfold _compute_target_info in H.
  pose proof (absolute_not_azfs path A) as Z.
  destruct (Z.to_nat depth) as [|b]; cbn [local_at] in H; rewrite Z in H;
    bind_inv H;
    (destruct (islink os path);
     [bind_inv H; injection H as <-; discriminate|]);
    (destruct (isfile os path); [injection H as <-; discriminate|]);
    (destruct (isdir os path); [|injection H as <-; discriminate]).
  - injection H as <-. discriminate.
  - rewrite L in H. cbn [bind] in H. bind_inv H. injection H as <-.
    cbn in C. injection C as <-. split; [|now split].
    eapply mapM_recover; [|exact Ha0].
    intros name y I E. cbv beta in E.
    rewrite forallb_forall in F. apply F in I. apply negb_true_iff in I.
    rewrite (local_at_name parse store os b _ y) by
      (exact E || apply absolute_not_azfs, join_absolute, A).
    now apply basename_join.
Qed.

Lemma directory_lists_its_entries_witness :
  exists cs,
    option_map (map node_name) (Some cs) = Some ["f"; "lnk"; "d"; "ld"]
    /\ child_names (_compute_target_info parse_azure_url Fixtures.local Fixtures.os
                                         "/store/bundle" 1)
       = Some (map node_name cs).
Proof.
  eexists. split.
  - cbn [option_map]. f_equal.
    apply (directory_lists_its_entries
             parse_azure_url Fixtures.local Fixtures.os "/store/bundle" 1
             ["f"; "lnk"; "d"; "ld"]
             (match _compute_target_info parse_azure_url Fixtures.local Fixtures.os
                                         "/store/bundle" 1 with
              | Ok n => n
              | Raise _ => mkNode "" None 0 0 None None None None None
              end)); reflexivity.
  - reflexivity.
Defined.

(** ** [normpath] on absolute paths *)

Lemma initial_slashes_absolute (p : string) :
  PyStr.startswith p "/" = true ->
  PosixPath.initial_slashes p = 1 \/ PosixPath.initial_slashes p = 2.
Proof.
  intro A. unfold PosixPath.initial_slashes. rewrite A.
  destruct (_ && _); auto.
Qed.

Lemma normpath_absolute (p : string) :
  PyStr.startswith p "/" = true ->
  PosixPath.normpath p
  = (leading (PosixPath.initial_slashes p)
     ++ PyStr.join "/" (fold_left (PosixPath.normpath_step (PosixPath.initial_slashes p))
                                  (PyStr.split PosixPath.sep_char p) []))%string.
Proof.
  intro A. unfold PosixPath.normpath.
  destruct p as [|a p]; [discriminate|]. cbn [String.eqb].
  fold (leading (PosixPath.initial_slashes (String a p))).
  destruct (initial_slashes_absolute _ A) as [-> | ->]; reflexivity.
Qed.

Lemma normpath_step_plain (slashes : nat) (l : list string) :
  forallb (fun c => negb (c =? "..")) l = true ->
  forall st, fold_left (PosixPath.normpath_step slashes) l st
             = (st ++ filter kept l)%list.
Proof.
  induction l as [|c l IH]; cbn [fold_left filter forallb]; intros F st.
  - now rewrite app_nil_r.
  - apply andb_true_iff in F. destruct F as [N F].
    rewrite (IH F). unfold PosixPath.normpath_step, kept.
    destruct ((c =? "") || (c =? ".")); cbn [negb]; [reflexivity|].
    rewrite N. cbn [orb]. now rewrite <- app_assoc.
Qed.




Lemma concat_app_prefix (l k : list string) :
  l <> [] ->
  exists rest, PyStr.join "/" (l ++ k) = (PyStr.join "/" l ++ rest)%string.
Proof.
  unfold PyStr.join. induction l as [|x l IH]; [congruence|]. intros _.
  destruct l as [|y l].
  - destruct k as [|z k]; cbn.
    + exists "". clear. induction x; cbn; [reflexivity|now f_equal].
    + now exists ("/" ++ String.concat "/" (z :: k))%string.
  - destruct (IH ltac:(discriminate)) as [rest E].
    exists rest.
    change (String.concat "/" ((x :: y :: l) ++ k))
      with (x ++ "/" ++ String.concat "/" ((y :: l) ++ k))%string.
    change (String.concat "/" (x :: y :: l))
      with (x ++ "/" ++ String.concat "/" (y :: l))%string.
    rewrite E. now rewrite !append_assoc.
Qed.







Lemma startswith_cons (a c : ascii) (s pre : string) :
  PyStr.startswith (String a s) (String c pre)
  = Ascii.eqb a c && PyStr.startswith s pre.
Proof.
  unfold PyStr.startswith. cbn [String.prefix].
  destruct (ascii_dec c a) as [<-|N].
  - now rewrite Ascii.eqb_refl.
  - assert (E : Ascii.eqb a c = false) by (apply Ascii.eqb_neq; congruence).
    now rewrite E.
Qed.

Lemma startswith_nil (s : string) : PyStr.startswith s "" = true.
Proof. now destruct s. Qed.

(** What follows a path of three characters or more, or of two that are
    not both separators, does not change how many separators lead it. *)
Lemma initial_slashes_app (r t : string) :
  PyStr.startswith r "/" = true -> r <> "/" -> r <> "//" ->
  PosixPath.initial_slashes (r ++ t) = PosixPath.initial_slashes r.
Proof.
  intros A N1 N2. unfold PosixPath.initial_slashes.
  destruct r as [|a [|b [|c r]]]; try discriminate.
  - rewrite (startswith_char "/") in A. apply Ascii.eqb_eq in A. now subst.
  - rewrite (startswith_char "/") in A. apply Ascii.eqb_eq in A. subst a.
    cbn [append].
    rewrite !startswith_cons, !startswith_nil.
    destruct (Ascii.eqb b "/") eqn:B.
    + apply Ascii.eqb_eq in B. now subst.
    + reflexivity.
  - cbn [append]. now rewrite !startswith_cons, !startswith_nil.
Qed.

Lemma no_dotdot_forallb (s : string) :
  has_dotdot s = false ->
  forallb (fun c => negb (c =? "..")) (PyStr.split PosixPath.sep_char s) = true.
Proof.
  unfold has_dotdot. induction (PyStr.split PosixPath.sep_char s) as [|c l IH]; cbn;
    [reflexivity|].
  intro H. apply orb_false_iff in H. destruct H as [-> H]. now rewrite IH.
Qed.

(** X12: a subpath with no [..] component is never refused for a local
    bundle: whatever else it holds (doubled separators, [.] components, a
    leading separator), the location stays below the real root and is
    returned. *)
Theorem plain_subpath_accepted
        (os : OS) (bundle_path : string) (target : BundleTarget) :
  PyStr.startswith bundle_path azfs = false ->
  PyStr.startswith (realpath os bundle_path) "/" = true ->
  PosixPath.normpath (realpath os bundle_path) = realpath os bundle_path ->
  realpath os bundle_path <> "//" ->
  has_dotdot (subpath target) = false ->
  _get_normalized_target_path os bundle_path target
  = Ok (PosixPath.normpath
          (_get_target_path (realpath os bundle_path) (subpath target))).
Proof.
  intros Z A Nr N2 P. unfold _get_normalized_target_path. rewrite Z.
  set (r := realpath os bundle_path) in *.
  pose proof (target_path_startswith r (subpath target) "/" A) as T.
  rewrite (absolute_not_azfs _ T). cbn [negb].
  assert (S : PyStr.startswith
                (PosixPath.normpath (_get_target_path r (subpath target))) r = true);
    [|now rewrite S].
  unfold _get_target_path in *.
  destruct (negb (subpath target =? "")).
  2:{ rewrite Nr. apply prefix_refl. }
  rewrite (normpath_absolute _ T).
  destruct (string_dec r "/") as [R1|R1].
  { rewrite R1 in *.
    destruct (initial_slashes_absolute _ T) as [-> | ->]; cbn [leading append];
      now rewrite (startswith_char "/"). }
  rewrite (initial_slashes_app r _ A R1 N2).
  change (PosixPath.sep ++ subpath target)%string
    with (String PosixPath.sep_char (subpath target)).
  rewrite split_app_sep, fold_left_app.
  rewrite (normpath_step_plain _ _ (no_dotdot_forallb _ P)).
  rewrite (normpath_absolute r A) in Nr.
  destruct (fold_left _ (PyStr.split PosixPath.sep_char r) []) as [|c comps].
  { exfalso. cbn in Nr.
    destruct (initial_slashes_absolute r A) as [I | I]; rewrite I in Nr;
      cbn in Nr; congruence. }
  destruct (concat_app_prefix (c :: comps)
                              (filter kept (PyStr.split PosixPath.sep_char (subpath target)))
                              ltac:(discriminate)) as [rest J].
  rewrite J, <- append_assoc, Nr. apply prefix_app.
Qed.

Lemma plain_subpath_accepted_witness :
  _get_normalized_target_path Fixtures.os "/store/bundle"
                              (mkBundleTarget "0xab" "/d//./g")
  = Ok "/store/bundle/d/g".
Proof.
  apply (plain_subpath_accepted Fixtures.os "/store/bundle"
           (mkBundleTarget "0xab" "/d//./g")); try reflexivity.
  discriminate.
Defined.

(** ** The archive-backed indexer on whole archives and on files *)




Section BeamShapes.

Variable parse : string -> result azure_parts.
Variable store : BlobStore.


End BeamShapes.



(** X14: an archive with no entries is an empty directory: the node of the
    whole archive has size 0 and, with a positive depth, an empty list of
    contents, whether the parser gives the absent internal path as the
    empty string or as [None]. *)
Theorem empty_archive_node
        (parse : string -> result azure_parts) (store : BlobStore)
        (path uuid zip_path : string) (sub : option string) (depth : Z) :
  parse path = Ok (uuid, Some zip_path, sub) ->
  truthy sub = false ->
  FileSystems_open store zip_path = Ok [] ->
  _compute_target_info_beam parse store path depth
  = Ok (mkNode uuid (Some directory) 0 511 None
               (if (0 <? depth)%Z then Some [] else None)
               (Some "azure") (Some []) None).
Proof.
  intros P T O. unfold _compute_target_info_beam.
  assert (I : match sub with Some s => s =? "/images/" | None => false end = false).
  { destruct sub as [s|]; [|reflexivity]. cbn in T. apply negb_false_iff in T.
    apply String.eqb_eq in T. now subst. }
  destruct (0 <? depth)%Z eqn:D.
  - apply Z.ltb_lt in D. rewrite (budget_succ depth D).
    cbn [beam_at]. rewrite P. cbn [bind]. rewrite I, T. cbn [negb].
    rewrite O. reflexivity.
  - apply Z.ltb_ge in D. rewrite (budget_zero depth D).
    cbn [beam_at]. rewrite P. cbn [bind]. rewrite I, T. cbn [negb].
    rewrite O. reflexivity.
Qed.

Lemma empty_archive_node_witness :
  _compute_target_info_beam parse_azure_url (store_of [(Fixtures.blob, [])] [])
                            Fixtures.blob 3
  = Ok (mkNode "0x1" (Some directory) 0 511 None (Some []) (Some "azure") (Some []) None).
Proof.
  apply (empty_archive_node parse_azure_url (store_of [(Fixtures.blob, [])] [])
           Fixtures.blob "0x1" Fixtures.blob (Some "") 3); reflexivity.
Defined.



(** ** Resolving, then indexing *)

(** X16: [get_target_info] indexes the location [get_target_path] gives:
    when the latter returns a local location that is there, the index is
    that of [_compute_target_info] on this location with the target
    recorded; and a target the containment check refuses is refused by both
    with the same exception. *)
Theorem index_of_readable_location
        (parse : string -> result azure_parts) (store : BlobStore) (os : OS)
        (bundle_path : string) (target : BundleTarget) (depth : Z) :
  (forall p,
      get_target_path os bundle_path target = Ok p ->
      FileSystems_exists store p = true ->
      get_target_info parse store os bundle_path target depth
      = (info <- _compute_target_info parse store os p depth ;;
         Ok (set_resolved_target info target)))
  /\ (forall e,
         _get_normalized_target_path os bundle_path target = Raise e ->
         get_target_path os bundle_path target = Raise e
         /\ get_target_info parse store os bundle_path target depth = Raise e).
Proof.
  split.
  - intros p H X.
    destruct (get_target_path_postcondition os bundle_path target p H) as (_ & _ & N).
    unfold get_target_info. rewrite N. cbn [bind]. rewrite X.
    cbn [negb]. now rewrite !andb_false_r.
  - intros e N. unfold get_target_path, get_target_info. now rewrite N.
Qed.

Lemma index_of_readable_location_witness :
  get_target_info parse_azure_url Fixtures.local Fixtures.os "/store/bundle"
                  (mkBundleTarget "0xab" "d") 1
  = (info <- _compute_target_info parse_azure_url Fixtures.local Fixtures.os
                                  "/store/bundle/d" 1 ;;
     Ok (set_resolved_target info (mkBundleTarget "0xab" "d"))).
Proof.
  apply (proj1 (index_of_readable_location
                  parse_azure_url Fixtures.local Fixtures.os "/store/bundle"
                  (mkBundleTarget "0xab" "d") 1) "/store/bundle/d"); reflexivity.
Defined.

(** X17: a symbolic link is indexed as a link and not followed: whatever
    the depth, and whether or not what it points to is there, the node has
    the type [link], the target [os.readlink] gives, and no [contents]. *)
Theorem symlink_indexed_not_followed
        (parse : string -> result azure_parts) (store : BlobStore) (os : OS)
        (bundle_path : string) (target : BundleTarget) (depth : Z)
        (p l : string) (st : stat_result) :
  _get_normalized_target_path os bundle_path target = Ok p ->
  PyStr.startswith p azfs = false ->
  islink os p = true ->
  lstat os p = Ok st ->
  readlink os p = Ok l ->
  get_target_info parse store os bundle_path target depth
  = Ok (mkNode (PosixPath.basename p) (Some link) (st_size st)
               (Z.land (st_mode st) 511) (Some l) None None None (Some target)).
Proof.
  intros N A I L R. unfold get_target_info. rewrite N. cbn [bind].
  rewrite I. cbn [negb]. rewrite andb_false_r. cbn [andb].
  unfold _compute_target_info.
  destruct (Z.to_nat depth); cbn [local_at]; rewrite A, L; cbn [bind];
    rewrite I, R; reflexivity.
Qed.

Lemma symlink_indexed_not_followed_witness :
  FileSystems_exists
    (Posix.local_store
       (Posix.mkFs (Posix.Dir 0 493 [("b", Posix.Dir 0 493
                                            [("gone", Posix.Symlink 7 511 "nowhere")])])
                   [])) "/b/gone" = false
  /\ get_target_info
       parse_azure_url
       (Posix.local_store
          (Posix.mkFs (Posix.Dir 0 493 [("b", Posix.Dir 0 493
                                               [("gone", Posix.Symlink 7 511 "nowhere")])])
                      []))
       (Posix.os_of
          (Posix.mkFs (Posix.Dir 0 493 [("b", Posix.Dir 0 493
                                               [("gone", Posix.Symlink 7 511 "nowhere")])])
                      []))
       "/b" (mkBundleTarget "0xab" "gone") 4
     = Ok (mkNode "gone" (Some link) 7 511 (Some "nowhere") None None None
                  (Some (mkBundleTarget "0xab" "gone"))).
Proof.
  split; [reflexivity|].
  apply (symlink_indexed_not_followed
           parse_azure_url _ _ "/b" (mkBundleTarget "0xab" "gone") 4
           "/b/gone" "nowhere" (mkStat 7 511)); reflexivity.
Defined.

(** ** A directory of an archive among its own children *)

Lemma filterM_pure {A} (f : A -> bool) (l : list A) :
  filterM (fun x => Ok (f x)) l = Ok (filter f l).
Proof. induction l as [|x l IH]; cbn; [reflexivity|now rewrite IH]. Qed.

Lemma mapM_In {A B} (f : A -> result B) (l : list A) (ys : list B) (x : A) :
  mapM f l = Ok ys -> In x l -> exists y, In y ys /\ f x = Ok y.
Proof.
  revert ys. induction l as [|x0 l IH]; cbn [mapM]; intros ys H I; [destruct I|].
  bind_inv H. bind_inv H. injection H as <-. destruct I as [<-|I].
  - exists a. split; [now left|exact Ha].
  - destruct (IH _ Ha0 I) as (y & Iy & E). exists y. split; [now right|exact E].
Qed.

Lemma beam_selected_Some (infolist : list ZipInfo) (sub : string) (dirs : list string) :
  beam_selected infolist (Some sub) dirs
  = Ok (filter (fun z =>
                  PyStr.startswith (filename z) sub
                  && negb (existsb (fun i => PyStr.startswith (filename z) i) dirs
                           && negb (is_dir z)))
               infolist).
Proof. unfold beam_selected. cbn [startswith_arg bind]. apply filterM_pure. Qed.

(** X18: the node of a directory entry of an archive, indexed with a
    positive depth, counts the directory itself among its children: one of
    the children is the index of that same entry at the depth less one. *)
Theorem archive_directory_lists_itself
        (parse : string -> result azure_parts) (store : BlobStore)
        (path uuid zip_path sub : string) (infolist : list ZipInfo)
        (depth : Z) (n : node) :
  parse path = Ok (uuid, Some zip_path, Some sub) ->
  (sub =? "") = false ->
  FileSystems_open store zip_path = Ok infolist ->
  PyStr.endswith_char sub PosixPath.sep_char = true ->
  (0 < depth)%Z ->
  _compute_target_info_beam parse store path depth = Ok n ->
  exists z cs c,
    In z infolist /\ filename z = sub
    /\ node_contents n = Some cs /\ In c cs
    /\ _compute_target_info_beam parse store (beam_child_path uuid z) (depth - 1)
       = Ok c.
Proof.
  intros P Ne O D Pos H. unfold _compute_target_info_beam in *.
  rewrite (budget_succ depth Pos) in H. cbn [beam_at] in H.
  rewrite P in H. cbn [bind] in H.
  destruct (sub =? "/images/"); [discriminate|].
  cbn [truthy] in H. rewrite Ne in H. cbn [negb] in H.
  rewrite O in H. cbn [bind] in H. bind_inv H.
  pose proof Ha as G. unfold getinfo in G.
  destruct (find _ (rev infolist)) as [z|] eqn:F; [|discriminate].
  injection G as ->. apply find_some in F. destruct F as [Iz Ez].
  apply in_rev in Iz. apply String.eqb_eq in Ez.
  assert (Dz : is_dir a = true) by (unfold is_dir; now rewrite Ez).
  rewrite Dz in H. cbn [negb] in H.
  bind_inv H. rewrite beam_selected_Some in H. cbn [bind] in H.
  bind_inv H. bind_inv H. injection H as <-.
  bind_inv Ha2. injection Ha2 as <-.
  destruct (mapM_In _ _ _ a Ha3) as (c & Ic & E).
  { apply filter_In. split; [exact Iz|].
    rewrite Dz, Ez. cbn [negb]. rewrite andb_false_r. cbn [negb].
    rewrite andb_true_r. apply prefix_refl. }
  cbv beta in E. rewrite Dz in E. cbn [negb] in E.
  exists a, a3, c. repeat split; assumption.
Qed.

Lemma archive_directory_lists_itself_witness :
  exists z cs c,
    In z Fixtures.complex /\ filename z = "c/d/e/"
    /\ node_contents
         (match _compute_target_info_beam parse_azure_url Fixtures.remote
                                          (Fixtures.blob ++ "/c/d/e/") 1
          with Ok n => n | Raise _ => mkNode "" None 0 0 None None None None None end)
       = Some cs
    /\ In c cs
    /\ _compute_target_info_beam parse_azure_url Fixtures.remote
                                 (beam_child_path "0x1" z) (1 - 1) = Ok c.
Proof.
  apply (archive_directory_lists_itself
           parse_azure_url Fixtures.remote (Fixtures.blob ++ "/c/d/e/") "0x1"
           Fixtures.blob "c/d/e/" Fixtures.complex 1); try reflexivity.
Defined.
